(** * CryptoMax: the dashboard ledger over its Supabase schema

    A shallow embedding of

    - [supabase/migrations/20250122233232_bitter_rain.sql]: the tables
      [profiles] and [transactions] with their constraints, the row level
      security policies, and the provisioning trigger [handle_new_user];
    - [src/pages/Dashboard.tsx]: the component state and the three
      handlers [fetchProfile], [fetchTransactions], [handleTransaction].

    Modelling decisions.

    - SQL [decimal] values are rationals ([Q]); a computed balance is
      stated as the sum it is, and the concrete runs show its fraction.
    - A JavaScript number is [NaN], a finite value or one of the two
      infinities; the dashboard only compares numbers, it never adds them.
      The conversion [Number(amount)] of the input string belongs to the
      host, and is a parameter of the development.
    - [timestamptz] is an integer count of microseconds, [uuid] a string.
    - The columns are modelled at the types of the interfaces [Profile] and
      [Transaction] of Dashboard.tsx, which have no null; [username] alone
      is nullable, for its UNIQUE constraint.
    - Requests reach the database (no network failure); [console.error] is
      not recorded, toasts are.
    - [gen_random_uuid()] and [now()] are inputs of each request.
    - Dashboard.tsx waits for "the trigger" that updates the balances after
      an insert into [transactions]; the migration defines no such trigger.
      Its effect on the two balances of the owning profile is a parameter
      ([balance_trigger]); the CHECK constraints of [profiles] are applied to
      whatever it writes. The migration as it stands is the instance
      [no_trigger].
    - The dashboard holds JSON numbers, that is doubles, where the table
      holds decimals. [select_profile] hands over the stored decimal as it
      is, which is what the code holds when the stored value is a double
      (0, 0.25, 0.5, 1, ...); no statement below equates a held balance with
      a stored one outside such values. *)

From Stdlib Require Import List Ascii String Bool ZArith QArith Lia.
From Stdlib Require Import Permutation Sorted.
Import ListNotations.

Local Open Scope Z_scope.

(** ** Values *)

Definition uuid := string.
Definition timestamptz := Z.
Definition decimal := Q.

Bind Scope string_scope with uuid.
Bind Scope Z_scope with timestamptz.
Bind Scope Q_scope with decimal.

Definition uuid_eqb (a b : uuid) : bool := String.eqb a b.


(** [type text CHECK (type IN ('deposit', 'withdrawal', 'trade'))] *)
Inductive tx_type := deposit | withdrawal | trade.

(** [currency text CHECK (currency IN ('BTC', 'USD'))] *)
Inductive currency := BTC | USD.

(** [status text CHECK (status IN ('pending', 'completed', 'failed'))] *)
Inductive status := pending | completed | failed.

(** A JavaScript number, as far as comparisons can tell. *)
Inductive number :=
| NaN
| Num (q : Q)
| Infinity
| NegInfinity.

Definition isNaN (n : number) : bool :=
  match n with NaN => true | _ => false end.

(** [x <= y] on JavaScript numbers: false as soon as one side is NaN. *)
Definition number_le (x y : number) : bool :=
  match x, y with
  | NaN, _ => false
  | _, NaN => false
  | NegInfinity, _ => true
  | _, Infinity => true
  | Infinity, _ => false
  | Num _, NegInfinity => false
  | Num a, Num b => Qle_bool a b
  end.

(** [x > y] on JavaScript numbers. *)
Definition number_gt (x y : number) : bool :=
  match x, y with
  | NaN, _ => false
  | _, NaN => false
  | NegInfinity, _ => false
  | _, Infinity => false
  | Infinity, _ => true
  | Num _, NegInfinity => true
  | Num a, Num b => negb (Qle_bool a b)
  end.

(** [JSON.stringify] of a number in a request body: a non-finite number is
    sent as [null]. *)
Definition to_json (n : number) : option decimal :=
  match n with Num q => Some q | _ => None end.

(** ** The tables *)

(** A row of [auth.users], the identity table of the platform: only the two
    columns [handle_new_user] reads. *)
Record users_row := {
  u_id : uuid;
  u_email : option string
}.

(** [CREATE TABLE profiles] *)
Record profiles_row := {
  p_id : uuid;
  p_username : option string;
  p_btc_balance : decimal;
  p_usd_balance : decimal;
  p_created_at : timestamptz;
  p_updated_at : timestamptz
}.

(** [CREATE TABLE transactions] *)
Record transactions_row := {
  t_id : uuid;
  t_user_id : uuid;
  t_type : tx_type;
  t_amount : decimal;
  t_currency : currency;
  t_status : status;
  t_created_at : timestamptz
}.

Record database := {
  db_users : list users_row;
  db_profiles : list profiles_row;
  db_transactions : list transactions_row
}.

Definition empty_database : database :=
  {| db_users := []; db_profiles := []; db_transactions := [] |}.

(** What a request comes back with: [{ data, error }]. *)
Inductive pg_error :=
| rls_violation
| unique_violation
| foreign_key_violation
| not_null_violation
| check_violation
| invalid_uuid
| no_single_row.

Inductive result (A : Type) :=
| Ok (data : A)
| Err (error : pg_error).
Arguments Ok {A} data.
Arguments Err {A} error.

(** [auth.uid() = id]: the request carries the identity [auth]. *)
Definition auth_uid_is (auth : option uuid) (id : uuid) : bool :=
  match auth with
  | Some u => uuid_eqb u id
  | None => false
  end.

(** [CHECK (btc_balance >= 0)] and [CHECK (usd_balance >= 0)] *)
Definition profiles_check (p : profiles_row) : bool :=
  Qle_bool 0 (p_btc_balance p) && Qle_bool 0 (p_usd_balance p).

Definition has_profile (id : uuid) (db : database) : bool :=
  existsb (fun p => uuid_eqb (p_id p) id) (db_profiles db).

Definition has_user (id : uuid) (db : database) : bool :=
  existsb (fun u => uuid_eqb (u_id u) id) (db_users db).

Definition has_transaction (id : uuid) (db : database) : bool :=
  existsb (fun t => uuid_eqb (t_id t) id) (db_transactions db).

(** [username text UNIQUE]: a NULL never collides. *)
Definition username_taken (name : option string) (db : database) : bool :=
  match name with
  | None => false
  | Some n =>
      existsb (fun p => match p_username p with
                        | Some m => String.eqb m n
                        | None => false
                        end) (db_profiles db)
  end.

(** ** Provisioning: [handle_new_user] and [on_auth_user_created] *)

(** [INSERT INTO profiles (id, username) VALUES (new.id, new.email)]: the
    balances and the timestamps take their defaults. *)
Definition new_profile (new : users_row) (now : timestamptz) : profiles_row :=
  {| p_id := u_id new;
     p_username := u_email new;
     p_btc_balance := 0%Q;
     p_usd_balance := 0%Q;
     p_created_at := now;
     p_updated_at := now |}.

Definition handle_new_user (new : users_row) (now : timestamptz)
    (db : database) : result database :=
  if has_profile (u_id new) db then Err unique_violation
  else if negb (has_user (u_id new) db) then Err foreign_key_violation
  else if username_taken (u_email new) db then Err unique_violation
  else Ok {| db_users := db_users db;
             db_profiles := db_profiles db ++ [new_profile new now];
             db_transactions := db_transactions db |}.

(** [AFTER INSERT ON auth.users FOR EACH ROW EXECUTE FUNCTION
    handle_new_user()]: the trigger fires inside the insert, and an error it
    raises aborts the registration. *)
Definition register_identity (new : users_row) (now : timestamptz)
    (db : database) : result database :=
  if has_user (u_id new) db then Err unique_violation
  else handle_new_user new now
         {| db_users := db_users db ++ [new];
            db_profiles := db_profiles db;
            db_transactions := db_transactions db |}.

(** ** Reading *)

(** The [Profile] interface of Dashboard.tsx. *)
Record Profile := {
  btc_balance : decimal;
  usd_balance : decimal
}.

(** [from('profiles').select('btc_balance, usd_balance').eq('id', id).single()]
    under the policy "Users can view own profile". *)
Definition select_profile (auth : option uuid) (id : option uuid)
    (db : database) : result Profile :=
  match id with
  | None => Err invalid_uuid
  | Some i =>
      match filter (fun p => auth_uid_is auth (p_id p) && uuid_eqb (p_id p) i)
                   (db_profiles db) with
      | [p] => Ok {| btc_balance := p_btc_balance p;
                     usd_balance := p_usd_balance p |}
      | _ => Err no_single_row
      end
  end.

(** [ORDER BY created_at DESC], by insertion. *)
Fixpoint insert_desc (t : transactions_row) (l : list transactions_row)
    : list transactions_row :=
  match l with
  | [] => [t]
  | x :: l' =>
      if t_created_at x <? t_created_at t then t :: x :: l'
      else x :: insert_desc t l'
  end.

Definition order_desc (l : list transactions_row) : list transactions_row :=
  fold_right insert_desc [] l.

(** The rows of [transactions] that the policy "Users can view own
    transactions" and the filter [.eq('user_id', id)] let through. *)
Definition own_transactions (auth : option uuid) (i : uuid) (db : database)
    : list transactions_row :=
  filter (fun t => auth_uid_is auth (t_user_id t) && uuid_eqb (t_user_id t) i)
         (db_transactions db).

(** [from('transactions').select('*').eq('user_id', id)
      .order('created_at', { ascending: false }).limit(10)] *)
Definition select_transactions (auth : option uuid) (id : option uuid)
    (db : database) : result (list transactions_row) :=
  match id with
  | None => Err invalid_uuid
  | Some i => Ok (firstn 10%nat (order_desc (own_transactions auth i db)))
  end.

(** ** The dashboard component *)

Inductive toast :=
| toast_error (message : string)
| toast_success (message : string).

(** The state of one mounted [Dashboard]: the identity [useAuth] hands it,
    its four [useState] cells, and the toasts it has raised, newest first. *)
Record Dashboard := {
  user : option uuid;
  profile : option Profile;
  transactions : list transactions_row;
  amount : string;
  loading : bool;
  toasts : list toast
}.

Definition setProfile (p : option Profile) (s : Dashboard) : Dashboard :=
  {| user := user s; profile := p; transactions := transactions s;
     amount := amount s; loading := loading s; toasts := toasts s |}.

Definition setTransactions (l : list transactions_row) (s : Dashboard)
    : Dashboard :=
  {| user := user s; profile := profile s; transactions := l;
     amount := amount s; loading := loading s; toasts := toasts s |}.

Definition setAmount (a : string) (s : Dashboard) : Dashboard :=
  {| user := user s; profile := profile s; transactions := transactions s;
     amount := a; loading := loading s; toasts := toasts s |}.

Definition setLoading (b : bool) (s : Dashboard) : Dashboard :=
  {| user := user s; profile := profile s; transactions := transactions s;
     amount := amount s; loading := b; toasts := toasts s |}.

Definition raise_toast (t : toast) (s : Dashboard) : Dashboard :=
  {| user := user s; profile := profile s; transactions := transactions s;
     amount := amount s; loading := loading s; toasts := t :: toasts s |}.

(** A dashboard as it is before its first effect runs. *)
Definition initial_dashboard (u : option uuid) : Dashboard :=
  {| user := u; profile := None; transactions := []; amount := EmptyString;
     loading := false; toasts := [] |}.

(** The parameter of [handleTransaction]: ['deposit' | 'withdrawal']. *)
Inductive submit_type := submit_deposit | submit_withdrawal.

Definition tx_type_of (ty : submit_type) : tx_type :=
  match ty with
  | submit_deposit => deposit
  | submit_withdrawal => withdrawal
  end.

Definition type_name (ty : submit_type) : string :=
  match ty with
  | submit_deposit => "deposit"
  | submit_withdrawal => "withdrawal"
  end.

Definition is_withdrawal (ty : submit_type) : bool :=
  match ty with
  | submit_withdrawal => true
  | submit_deposit => false
  end.

(** [profile?.btc_balance] as an operand of [>]: [undefined] converts to
    NaN. *)
Definition optional_btc_balance (p : option Profile) : number :=
  match p with
  | Some p => Num (btc_balance p)
  | None => NaN
  end.

(** What the database draws for one insert. *)
Record env := {
  gen_random_uuid : uuid;
  now : timestamptz
}.

(** [fetchProfile] *)
Definition fetchProfile (s : Dashboard) (db : database) : Dashboard :=
  match select_profile (user s) (user s) db with
  | Ok data => setProfile (Some data) s
  | Err _ => raise_toast (toast_error "Failed to load profile") s
  end.

(** [fetchTransactions] *)
Definition fetchTransactions (s : Dashboard) (db : database) : Dashboard :=
  match select_transactions (user s) (user s) db with
  | Ok data => setTransactions data s
  | Err _ => raise_toast (toast_error "Failed to load transactions") s
  end.

(** The effect run on mount. The code starts the two fetches without
    awaiting the first; they write different cells of the state, so the
    order in which they complete shows only in the order of two error
    toasts when both fail. They are run here in the order of the source. *)
Definition mount (u : option uuid) (db : database) : Dashboard :=
  fetchTransactions (fetchProfile (initial_dashboard u) db) db.

Section Ledger.

(** [Number(amount)], the host's conversion of the input string. *)
Variable Number : string -> number.

(** What "the trigger" of Dashboard.tsx writes into the two balances
    [(btc_balance, usd_balance)] of the profile that owns a new row of
    [transactions]. *)
Variable balance_trigger :
  transactions_row -> decimal * decimal -> decimal * decimal.

Definition fire_trigger (new : transactions_row) (p : profiles_row)
    : profiles_row :=
  if uuid_eqb (p_id p) (t_user_id new) then
    let b := balance_trigger new (p_btc_balance p, p_usd_balance p) in
    {| p_id := p_id p;
       p_username := p_username p;
       p_btc_balance := fst b;
       p_usd_balance := snd b;
       p_created_at := p_created_at p;
       p_updated_at := p_updated_at p |}
  else p.

(** The CHECK constraints of [profiles], on the rows the trigger wrote. *)
Definition written_rows_check (new : transactions_row)
    (ps : list profiles_row) : bool :=
  forallb (fun p => negb (uuid_eqb (p_id p) (t_user_id new))
                    || profiles_check p) ps.

(** [INSERT INTO transactions] of a complete row by the identity [auth]:
    the policy "Users can insert own transactions", the primary key, the
    foreign key to [profiles], then the trigger, all in one statement. An
    error leaves the database as it was. *)
Definition insert_transaction (auth : option uuid) (new : transactions_row)
    (db : database) : result database :=
  if negb (auth_uid_is auth (t_user_id new)) then Err rls_violation
  else if has_transaction (t_id new) db then Err unique_violation
  else if negb (has_profile (t_user_id new) db) then Err foreign_key_violation
  else
    let ps := map (fire_trigger new) (db_profiles db) in
    if written_rows_check new ps then
      Ok {| db_users := db_users db;
            db_profiles := ps;
            db_transactions := db_transactions db ++ [new] |}
    else Err check_violation.

(** The request body of [handleTransaction]:
    [{ user_id: user?.id, type, amount: Number(amount), currency: 'BTC',
       status: 'completed' }]; [id] and [created_at] take their defaults. *)
Definition submitted_row (uid : uuid) (ty : submit_type) (a : decimal)
    (e : env) : transactions_row :=
  {| t_id := gen_random_uuid e;
     t_user_id := uid;
     t_type := tx_type_of ty;
     t_amount := a;
     t_currency := BTC;
     t_status := completed;
     t_created_at := now e |}.

Definition insert_submitted (s : Dashboard) (ty : submit_type) (e : env)
    (db : database) : result database :=
  match user s, to_json (Number (amount s)) with
  | None, _ => Err rls_violation
  | Some _, None => Err not_null_violation
  | Some uid, Some a => insert_transaction (Some uid) (submitted_row uid ty a e) db
  end.

(** [!amount || isNaN(Number(amount)) || Number(amount) <= 0] *)
Definition invalid_amount (a : string) : bool :=
  String.eqb a EmptyString || isNaN (Number a) || number_le (Number a) (Num 0).

(** [type === 'withdrawal' && Number(amount) > profile?.btc_balance] *)
Definition insufficient_balance (ty : submit_type) (s : Dashboard) : bool :=
  is_withdrawal ty
  && number_gt (Number (amount s)) (optional_btc_balance (profile s)).

(** [handleTransaction] *)
Definition handleTransaction (ty : submit_type) (e : env) (s : Dashboard)
    (db : database) : Dashboard * database :=
  if invalid_amount (amount s) then
    (raise_toast (toast_error "Please enter a valid amount") s, db)
  else if insufficient_balance ty s then
    (raise_toast (toast_error "Insufficient balance") s, db)
  else
    let s1 := setLoading true s in
    match insert_submitted s ty e db with
    | Err _ =>
        (setLoading false
           (raise_toast
              (toast_error (String.append "Failed to process " (type_name ty)))
              s1), db)
    | Ok db' =>
        let s2 :=
          raise_toast
            (toast_success (String.append (type_name ty) " successful")) s1 in
        let s3 := setAmount EmptyString s2 in
        let s4 := fetchProfile s3 db' in
        let s5 := fetchTransactions s4 db' in
        (setLoading false s5, db')
    end.

(** A call of [handleTransaction] is accepted when it passes both guards
    and the insert comes back without an error. *)
Definition accepted (ty : submit_type) (e : env) (s : Dashboard)
    (db : database) : bool :=
  negb (invalid_amount (amount s))
  && negb (insufficient_balance ty s)
  && match insert_submitted s ty e db with
     | Ok _ => true
     | Err _ => false
     end.

(** One use of the form: type [a] into the input, press the button. *)
Record submission := {
  sub_type : submit_type;
  sub_amount : string;
  sub_env : env
}.

Definition submit (c : submission) (w : Dashboard * database)
    : Dashboard * database :=
  handleTransaction (sub_type c) (sub_env c) (setAmount (sub_amount c) (fst w))
                    (snd w).

(** The states after each submission of a sequence, in order. *)
Fixpoint submit_all (cs : list submission) (w : Dashboard * database)
    : list (Dashboard * database) :=
  match cs with
  | [] => []
  | c :: cs' => let w' := submit c w in w' :: submit_all cs' w'
  end.

End Ledger.

(** ** Instances of the two parameters *)

(** The migration as it stands: no trigger on [transactions], the balances
    stay as they are. *)
Definition no_trigger (new : transactions_row) (b : decimal * decimal)
    : decimal * decimal := b.

(** The signed delta of a row: [+amount] for a deposit, [-amount] for a
    withdrawal; a trade has no command path and moves nothing. *)
Definition signed_delta (new : transactions_row) : decimal :=
  match t_type new with
  | deposit => t_amount new
  | withdrawal => Qopp (t_amount new)
  | trade => 0%Q
  end.

(** Modelled from the spec: the balance trigger that the comments of
    Dashboard.tsx count on and the migration does not define. It applies the
    signed delta of the new row to the balance of the row's currency, in
    the same statement as the insert. It is one instance of
    [balance_trigger], used to run the dashboard on a table whose balances
    move; what is proved of the code is proved for every trigger or for
    [no_trigger]. *)
Definition ledger_trigger (new : transactions_row) (b : decimal * decimal)
    : decimal * decimal :=
  match t_currency new with
  | BTC => (Qplus (fst b) (signed_delta new), snd b)
  | USD => (fst b, Qplus (snd b) (signed_delta new))
  end.

(** A conversion for plain decimal literals ([12], [0.5], [-3.25], [.5]),
    on which it agrees with [Number]; the empty string converts to [0] and
    anything else to NaN. It instantiates [Number] in the closed examples. *)
Definition digit_of (c : Ascii.ascii) : option Z :=
  let n := Z.of_nat (Ascii.nat_of_ascii c) in
  if (48 <=? n) && (n <=? 57) then Some (n - 48) else None.

Fixpoint read_fraction (s : string) (num : Z) (den : positive) (seen : bool)
    : option Q :=
  match s with
  | EmptyString => if seen then Some (Qred (num # den)) else None
  | String c s' =>
      match digit_of c with
      | Some d => read_fraction s' (10 * num + d) (10 * den) true
      | None => None
      end
  end.

Fixpoint read_integer (s : string) (num : Z) (seen : bool) : option Q :=
  match s with
  | EmptyString => if seen then Some (num # 1) else None
  | String c s' =>
      if Ascii.eqb c "."%char then read_fraction s' num 1 seen
      else match digit_of c with
           | Some d => read_integer s' (10 * num + d) true
           | None => None
           end
  end.

Definition decimal_Number (s : string) : number :=
  match s with
  | EmptyString => Num 0
  | String c s' =>
      if Ascii.eqb c "-"%char then
        match read_integer s' 0 false with
        | Some q => Num (Qopp q)
        | None => NaN
        end
      else
        match read_integer s 0 false with
        | Some q => Num q
        | None => NaN
        end
  end.


(** ** Predicates of the statements *)

(** The row of [profiles] of an identity. *)
Definition stored_profile (id : uuid) (db : database) : option profiles_row :=
  find (fun p => uuid_eqb (p_id p) id) (db_profiles db).

(** Every account satisfies the two CHECK constraints. *)
Definition balances_nonneg (db : database) : Prop :=
  Forall (fun p => 0 <= p_btc_balance p /\ 0 <= p_usd_balance p)%Q
         (db_profiles db).

(** [profiles.id] is a primary key. *)
Definition profiles_pkey (db : database) : Prop :=
  NoDup (map p_id (db_profiles db)).


(** Newest first, ties allowed. *)
Definition newest_first (l : list transactions_row) : Prop :=
  StronglySorted (fun x y => t_created_at y <= t_created_at x) l.

(** Newest first, no two records of the same instant. *)
Definition strictly_newest_first (l : list transactions_row) : Prop :=
  StronglySorted (fun x y => t_created_at y < t_created_at x) l.

(** ** The claims that do not hold as they are worded *)

(** C2 as worded: a withdrawal above the balance stored for the account
    is answered with "Insufficient balance" and changes nothing. *)
Definition withdrawal_above_stored_balance_rejected
    (Number : string -> number)
    (trig : transactions_row -> decimal * decimal -> decimal * decimal)
    : Prop :=
  forall (e : env) (s : Dashboard) (db : database) (uid : uuid)
         (p : profiles_row) (a : Q),
    balances_nonneg db ->
    profiles_pkey db ->
    user s = Some uid ->
    stored_profile uid db = Some p ->
    amount s <> EmptyString ->
    Number (amount s) = Num a ->
    (p_btc_balance p < a)%Q ->
    handleTransaction Number trig submit_withdrawal e s db
    = (raise_toast (toast_error "Insufficient balance") s, db).

(** C6 as worded: the listing is strictly descending in [created_at]. *)
Definition listing_strictly_descending : Prop :=
  forall (s : Dashboard) (db : database) (uid : uuid),
    user s = Some uid ->
    let l := transactions (fetchTransactions s db) in
    (List.length l <= 10)%nat /\ strictly_newest_first l.

(** C7 as worded: whichever insert puts a record into [transactions], the
    amounts in the table stay strictly positive. *)
Definition every_record_has_positive_amount
    (trig : transactions_row -> decimal * decimal -> decimal * decimal)
    : Prop :=
  forall (auth : option uuid) (new : transactions_row) (db db' : database),
    Forall (fun t => (0 < t_amount t)%Q) (db_transactions db) ->
    insert_transaction trig auth new db = Ok db' ->
    Forall (fun t => (0 < t_amount t)%Q) (db_transactions db').


(** ** A session to run the handlers on *)

Definition alice_id : uuid := "alice".

Definition alice : users_row :=
  {| u_id := alice_id; u_email := Some "alice@example.org"%string |}.

(** The database after the registration of [alice] at instant 100. *)
Definition alice_db : database :=
  {| db_users := [alice];
     db_profiles := [new_profile alice 100];
     db_transactions := [] |}.

Definition at_instant (id : uuid) (t : timestamptz) : env :=
  {| gen_random_uuid := id; now := t |}.

Definition deposit_of (a : string) (id : uuid) (t : timestamptz)
    : submission :=
  {| sub_type := submit_deposit; sub_amount := a; sub_env := at_instant id t |}.

Definition withdrawal_of (a : string) (id : uuid) (t : timestamptz)
    : submission :=
  {| sub_type := submit_withdrawal; sub_amount := a;
     sub_env := at_instant id t |}.

Definition ledger_submit : submission -> Dashboard * database ->
                           Dashboard * database :=
  submit decimal_Number ledger_trigger.

(** The dashboard of [alice] freshly mounted on [alice_db]. *)
Definition alice_mounted : Dashboard * database :=
  (mount (Some alice_id) alice_db, alice_db).

(** The example of the spec: deposit 0.5, try to withdraw 1.0, withdraw
    0.5. *)
Definition spec_example : list submission :=
  [deposit_of "0.5" "tx1" 200;
   withdrawal_of "1.0" "tx2" 300;
   withdrawal_of "0.5" "tx3" 400].

(** Two tabs of the same user. Tab A deposits 1; tab B is opened and
    fetches the profile; tab A withdraws 0.75. Tab B still holds the
    balance 1 while the table says 0.25. *)
Definition tab_a_deposited : Dashboard * database :=
  ledger_submit (deposit_of "1" "tx1" 200) alice_mounted.

Definition tab_b : Dashboard :=
  mount (Some alice_id) (snd tab_a_deposited).

Definition tab_a_withdrew : Dashboard * database :=
  ledger_submit (withdrawal_of "0.75" "tx2" 300) tab_a_deposited.

Definition tab_b_withdraws : Dashboard * database :=
  ledger_submit (withdrawal_of "0.5" "tx3" 400) (tab_b, snd tab_a_withdrew).

(** A row sent to the table directly, through the policy "Users can insert
    own transactions", not through the dashboard. *)
Definition direct_row (id : uuid) (ty : tx_type) (a : decimal)
    (st : status) (t : timestamptz) : transactions_row :=
  {| t_id := id; t_user_id := alice_id; t_type := ty; t_amount := a;
     t_currency := BTC; t_status := st; t_created_at := t |}.

Definition insert_or_keep
    (trig : transactions_row -> decimal * decimal -> decimal * decimal)
    (db : database) (new : transactions_row) : database :=
  match insert_transaction trig (Some (t_user_id new)) new db with
  | Ok db' => db'
  | Err _ => db
  end.

(** Two rows of one statement: both take the same [now()]. *)
Definition twin_db : database :=
  fold_left (insert_or_keep ledger_trigger)
            [direct_row "tx1" deposit 1 completed 200;
             direct_row "tx2" deposit 2 completed 200]
            alice_db.

(** Eleven deposits in a row, one per instant. *)
Definition ten_more_deposits : list submission :=
  [deposit_of "1" "tx02" 300; deposit_of "1" "tx03" 400;
   deposit_of "1" "tx04" 500; deposit_of "1" "tx05" 600;
   deposit_of "1" "tx06" 700; deposit_of "1" "tx07" 800;
   deposit_of "1" "tx08" 900; deposit_of "1" "tx09" 1000;
   deposit_of "1" "tx10" 1100; deposit_of "1" "tx11" 1200].

(** The dashboard of a session with [a] typed into the input. *)
Definition typed (a : string) (w : Dashboard * database) : Dashboard :=
  setAmount a (fst w).

(** Tab A, holding the balance 0.25, asks for 0.75. *)
Definition over_asking : Dashboard := typed "0.75" tab_a_withdrew.


(** Tab B as it is when the table says 0.25: holding the balance 1, with
    0.5 typed in. *)
Definition stale_asking : Dashboard := typed "0.5" (tab_b, snd tab_a_withdrew).

(** ** The declared constraints, as predicates on a database *)

(** [transactions.id] is a primary key. *)
Definition transactions_pkey (db : database) : Prop :=
  NoDup (map t_id (db_transactions db)).

(** [auth.users.id] is a primary key. *)
Definition users_pkey (db : database) : Prop :=
  NoDup (map u_id (db_users db)).

(** [profiles.id REFERENCES auth.users(id)] *)
Definition profiles_fkey (db : database) : Prop :=
  Forall (fun p => has_user (p_id p) db = true) (db_profiles db).

(** [transactions.user_id REFERENCES profiles(id)] *)
Definition transactions_fkey (db : database) : Prop :=
  Forall (fun t => has_profile (t_user_id t) db = true) (db_transactions db).

(** The usernames that are not NULL, in table order. *)
Definition usernames (ps : list profiles_row) : list string :=
  flat_map (fun p => match p_username p with
                     | Some n => [n]
                     | None => []
                     end) ps.

(** [username text UNIQUE] *)
Definition usernames_unique (db : database) : Prop :=
  NoDup (usernames (db_profiles db)).

(** Every constraint the migration declares holds. *)
Definition db_consistent (db : database) : Prop :=
  users_pkey db /\ profiles_pkey db /\ transactions_pkey db /\
  profiles_fkey db /\ transactions_fkey db /\
  usernames_unique db /\ balances_nonneg db.

(** ** Statements against the database *)

(** The two writes the migration provides for: a registration, which fires
    [handle_new_user], and an insert into [transactions] by some identity,
    which is what the dashboard sends and what the insert policy lets any
    client send. *)
Inductive statement :=
| register (new : users_row) (t : timestamptz)
| insert_row (auth : option uuid) (new : transactions_row).

(** A statement that fails is rolled back. *)
Definition execute
    (trig : transactions_row -> decimal * decimal -> decimal * decimal)
    (db : database) (st : statement) : database :=
  match st with
  | register new t =>
      match register_identity new t db with
      | Ok db' => db'
      | Err _ => db
      end
  | insert_row auth new =>
      match insert_transaction trig auth new db with
      | Ok db' => db'
      | Err _ => db
      end
  end.

Definition execute_all
    (trig : transactions_row -> decimal * decimal -> decimal * decimal)
    (sts : list statement) (db : database) : database :=
  fold_left (execute trig) sts db.

(** The rows an [UPDATE profiles ... WHERE id = i] of the identity [auth]
    reaches under the policy "Users can update own profile"
    ([USING (auth.uid() = id)]). *)
Definition update_hits (auth : option uuid) (i : uuid) (p : profiles_row)
    : bool :=
  auth_uid_is auth (p_id p) && uuid_eqb (p_id p) i.

(** [SET btc_balance = b, usd_balance = u] on one row. *)
Definition with_balances (b u : decimal) (p : profiles_row) : profiles_row :=
  {| p_id := p_id p;
     p_username := p_username p;
     p_btc_balance := b;
     p_usd_balance := u;
     p_created_at := p_created_at p;
     p_updated_at := p_updated_at p |}.

Definition update_row (auth : option uuid) (i : uuid) (b u : decimal)
    (p : profiles_row) : profiles_row :=
  if update_hits auth i p then with_balances b u p else p.

(** [UPDATE profiles SET btc_balance = b, usd_balance = u WHERE id = i]
    with two numbers [b] and [u], sent by the identity [auth]: the rows the
    policy hides are not updated, without an error, and the CHECK
    constraints are applied to the rows written. An update to NULL, which
    the nullable columns and their CHECK constraints would let through, is
    not among the statements modelled. *)
Definition update_balances (auth : option uuid) (i : uuid) (b u : decimal)
    (db : database) : result database :=
  let ps := map (update_row auth i b u) (db_profiles db) in
  if forallb (fun p => negb (update_hits auth i p) || profiles_check p) ps then
    Ok {| db_users := db_users db;
          db_profiles := ps;
          db_transactions := db_transactions db |}
  else Err check_violation.

(** A conversion that knows the literal [Infinity] besides the plain
    decimals. *)
Definition Number_with_Infinity (s : string) : number :=
  if String.eqb s "Infinity" then Infinity else decimal_Number s.

(** A second identity, without e-mail. *)
Definition bob_id : uuid := "bob".

Definition bob : users_row := {| u_id := bob_id; u_email := None |}.

(** [alice] and [bob] registered, [alice] with one deposit of 1. *)
Definition two_users_db : database :=
  execute_all ledger_trigger
    [register alice 100;
     register bob 150;
     insert_row (Some alice_id) (direct_row "tx1" deposit 1 completed 200)]
    empty_database.

(** The database after the registration of [bob] at instant 150, on top
    of [alice_db]. *)
Definition alice_bob_db : database :=
  {| db_users := [alice; bob];
     db_profiles := [new_profile alice 100; new_profile bob 150];
     db_transactions := [] |}.

(** [alice_db] after [alice] has written 5 and 7 into her own balances. *)
Definition alice_rich_db : database :=
  {| db_users := [alice];
     db_profiles := [with_balances 5 7 (new_profile alice 100)];
     db_transactions := [] |}.

(** A dashboard nobody is signed in to. *)
Definition signed_out : Dashboard := typed "1" (mount None alice_db, alice_db).

(** [alice] types the literal [Infinity]. *)
Definition asking_infinity : Dashboard := typed "Infinity" alice_mounted.

(** ** The dashboard on the migration as it stands *)

(** A submission against the tables of the migration, which has no trigger
    on [transactions]. *)
Definition plain_submit : submission -> Dashboard * database ->
                          Dashboard * database :=
  submit decimal_Number no_trigger.

(** [alice], balance 0, deposits 0.5. *)
Definition half_deposited : Dashboard * database :=
  plain_submit (deposit_of "0.5" "tx1" 200) alice_mounted.

(** Three deposits of 2, one after the other. *)
Definition three_deposits : list submission :=
  [deposit_of "2" "tx1" 200; deposit_of "2" "tx2" 300;
   deposit_of "2" "tx3" 400].

(** * Proofs *)

(** ** Identifiers and the sample conversion *)

Lemma uuid_eqb_eq (a b : uuid) : uuid_eqb a b = true <-> a = b.
Proof. apply String.eqb_eq. Qed.

Lemma uuid_eqb_refl (a : uuid) : uuid_eqb a a = true.
Proof. apply String.eqb_refl. Qed.

Lemma uuid_eqb_neq (a b : uuid) : uuid_eqb a b = false <-> a <> b.
Proof. apply String.eqb_neq. Qed.

Example decimal_Number_half : decimal_Number "0.5" = Num (1 # 2).
Proof. reflexivity. Qed.

Example decimal_Number_word : decimal_Number "abc" = NaN.
Proof. reflexivity. Qed.

Example decimal_Number_negative : decimal_Number "-3" = Num (-3 # 1).
Proof. reflexivity. Qed.

(** ** Numbers *)

Lemma number_le_zero_spec (n : number) :
  number_le n (Num 0) = true <->
  n = NegInfinity \/ exists q, n = Num q /\ (q <= 0)%Q.
Proof.
  destruct n as [|q| |]; simpl; split; intros H.
  - discriminate.
  - destruct H as [H|[q [H _]]]; discriminate.
  - right. exists q. split; [reflexivity|]. now apply Qle_bool_iff.
  - destruct H as [H|[q' [H Hq]]]; [discriminate|].
    injection H as ->. now apply Qle_bool_iff.
  - discriminate.
  - destruct H as [H|[q [H _]]]; discriminate.
  - now left.
  - reflexivity.
Qed.

Lemma number_gt_Num (a b : Q) :
  number_gt (Num a) (Num b) = true <-> (b < a)%Q.
Proof.
  simpl. rewrite negb_true_iff. split.
  - intros H. apply Qnot_le_lt. intros Hle.
    apply Qle_bool_iff in Hle. congruence.
  - intros H. destruct (Qle_bool a b) eqn:E; [|reflexivity].
    apply Qle_bool_iff in E. exfalso. now apply (Qlt_not_le b a).
Qed.

Lemma profiles_check_spec (p : profiles_row) :
  profiles_check p = true <->
  (0 <= p_btc_balance p /\ 0 <= p_usd_balance p)%Q.
Proof.
  unfold profiles_check. rewrite andb_true_iff, !Qle_bool_iff. tauto.
Qed.

(** ** Toasts of the two fetches *)

Lemma toasts_fetchProfile s db t :
  In t (toasts s) -> In t (toasts (fetchProfile s db)).
Proof.
  unfold fetchProfile.
  destruct (select_profile (user s) (user s) db); simpl; auto.
Qed.

Lemma toasts_fetchTransactions s db t :
  In t (toasts s) -> In t (toasts (fetchTransactions s db)).
Proof.
  unfold fetchTransactions.
  destruct (select_transactions (user s) (user s) db); simpl; auto.
Qed.

(** ** The four ways through [handleTransaction] *)

Section Handler.

Variable Number : string -> number.
Variable balance_trigger :
  transactions_row -> decimal * decimal -> decimal * decimal.

Abbreviation handle := (handleTransaction Number balance_trigger).
Abbreviation insert := (insert_transaction balance_trigger).

Lemma handle_invalid ty e s db :
  invalid_amount Number (amount s) = true ->
  handle ty e s db =
  (raise_toast (toast_error "Please enter a valid amount") s, db).
Proof. intros H. unfold handleTransaction. now rewrite H. Qed.

Lemma handle_insufficient ty e s db :
  invalid_amount Number (amount s) = false ->
  insufficient_balance Number ty s = true ->
  handle ty e s db = (raise_toast (toast_error "Insufficient balance") s, db).
Proof. intros H1 H2. unfold handleTransaction. now rewrite H1, H2. Qed.

Lemma handle_failed ty e s db err :
  invalid_amount Number (amount s) = false ->
  insufficient_balance Number ty s = false ->
  insert_submitted Number balance_trigger s ty e db = Err err ->
  handle ty e s db =
  (setLoading false
     (raise_toast
        (toast_error (String.append "Failed to process " (type_name ty)))
        (setLoading true s)), db).
Proof. intros H1 H2 H3. unfold handleTransaction. now rewrite H1, H2, H3. Qed.

Lemma handle_ok ty e s db db' :
  invalid_amount Number (amount s) = false ->
  insufficient_balance Number ty s = false ->
  insert_submitted Number balance_trigger s ty e db = Ok db' ->
  handle ty e s db =
  (setLoading false
     (fetchTransactions
        (fetchProfile
           (setAmount EmptyString
              (raise_toast
                 (toast_success (String.append (type_name ty) " successful"))
                 (setLoading true s))) db') db'), db').
Proof. intros H1 H2 H3. unfold handleTransaction. now rewrite H1, H2, H3. Qed.

(** Whatever the way, the database afterwards is the one before, or the
    one an insert of the submitted row produced. *)
Lemma handle_database ty e s db :
  snd (handle ty e s db) = db \/
  exists uid a,
    user s = Some uid /\ Number (amount s) = Num a /\ (0 < a)%Q /\
    insert (Some uid) (submitted_row uid ty a e) db
    = Ok (snd (handle ty e s db)).
Proof.
  destruct (invalid_amount Number (amount s)) eqn:Hv.
  { left. now rewrite handle_invalid. }
  destruct (insufficient_balance Number ty s) eqn:Hi.
  { left. now rewrite handle_insufficient. }
  destruct (insert_submitted Number balance_trigger s ty e db) as [db'|err] eqn:Hs.
  2:{ left. now rewrite (handle_failed _ _ _ _ err). }
  right. rewrite (handle_ok _ _ _ _ db') by assumption. simpl.
  unfold insert_submitted in Hs.
  destruct (user s) as [uid|]; [|discriminate].
  destruct (Number (amount s)) as [|a| |] eqn:Hn; simpl in Hs; try discriminate.
  exists uid, a. repeat split; try assumption.
  unfold invalid_amount in Hv. rewrite Hn in Hv.
  apply orb_false_iff in Hv. destruct Hv as [_ Hle]. simpl in Hle.
  apply Qnot_le_lt. intros Hq. apply Qle_bool_iff in Hq. congruence.
Qed.

Lemma accepted_false_database ty e s db :
  accepted Number balance_trigger ty e s db = false ->
  handle ty e s db = (fst (handle ty e s db), db).
Proof.
  unfold accepted. intros H.
  destruct (invalid_amount Number (amount s)) eqn:Hv.
  { now rewrite handle_invalid. }
  destruct (insufficient_balance Number ty s) eqn:Hi.
  { now rewrite handle_insufficient. }
  destruct (insert_submitted Number balance_trigger s ty e db) as [db'|err] eqn:Hs.
  { discriminate. }
  now rewrite (handle_failed _ _ _ _ err).
Qed.

(** An accepted call is one that raises the success toast; any other
    call raises an error toast and nothing else. *)
Lemma accepted_true_toast ty e s db :
  accepted Number balance_trigger ty e s db = true ->
  In (toast_success (String.append (type_name ty) " successful"))
     (toasts (fst (handle ty e s db))).
Proof.
  unfold accepted. intros H.
  apply andb_true_iff in H. destruct H as [H Hi].
  apply andb_true_iff in H. destruct H as [Hv Hb].
  apply negb_true_iff in Hv, Hb.
  destruct (insert_submitted Number balance_trigger s ty e db) as [db'|] eqn:Hs;
    [|discriminate].
  rewrite (handle_ok _ _ _ _ db') by assumption. simpl.
  apply toasts_fetchTransactions, toasts_fetchProfile. simpl. now left.
Qed.

Lemma accepted_false_toast ty e s db :
  accepted Number balance_trigger ty e s db = false ->
  exists message,
    toasts (fst (handle ty e s db)) = toast_error message :: toasts s.
Proof.
  unfold accepted. intros H.
  destruct (invalid_amount Number (amount s)) eqn:Hv.
  { rewrite handle_invalid by assumption. simpl. eauto. }
  destruct (insufficient_balance Number ty s) eqn:Hi.
  { rewrite handle_insufficient by assumption. simpl. eauto. }
  destruct (insert_submitted Number balance_trigger s ty e db) as [db'|err] eqn:Hs.
  { discriminate. }
  rewrite (handle_failed _ _ _ _ err) by assumption. simpl. eauto.
Qed.

(** ** The database under an insert *)

Lemma fire_trigger_id new p : p_id (fire_trigger balance_trigger new p) = p_id p.
Proof. unfold fire_trigger. now destruct (uuid_eqb (p_id p) (t_user_id new)). Qed.

Lemma fire_trigger_ids new ps :
  map p_id (map (fire_trigger balance_trigger new) ps) = map p_id ps.
Proof.
  induction ps as [|p ps IH]; simpl; [reflexivity|].
  now rewrite fire_trigger_id, IH.
Qed.

Lemma fire_trigger_other new p :
  uuid_eqb (p_id p) (t_user_id new) = false ->
  fire_trigger balance_trigger new p = p.
Proof. intros H. unfold fire_trigger. now rewrite H. Qed.

Lemma insert_ok_inv auth new db db' :
  insert auth new db = Ok db' ->
  auth = Some (t_user_id new) /\
  has_transaction (t_id new) db = false /\
  has_profile (t_user_id new) db = true /\
  written_rows_check new (map (fire_trigger balance_trigger new) (db_profiles db))
  = true /\
  db' = {| db_users := db_users db;
           db_profiles := map (fire_trigger balance_trigger new) (db_profiles db);
           db_transactions := db_transactions db ++ [new] |}.
Proof.
  unfold insert_transaction. intros H.
  destruct (auth_uid_is auth (t_user_id new)) eqn:Ha; simpl in H; [|discriminate].
  destruct (has_transaction (t_id new) db) eqn:Ht; [discriminate|].
  destruct (has_profile (t_user_id new) db) eqn:Hp; simpl in H; [|discriminate].
  destruct (written_rows_check new _) eqn:Hc; [|discriminate].
  injection H as <-. repeat split; try reflexivity.
  destruct auth as [u|]; simpl in Ha; [|discriminate].
  apply uuid_eqb_eq in Ha. now subst.
Qed.

(** The CHECK constraints survive every insert, whatever the trigger
    writes. *)
Lemma insert_balances_nonneg auth new db db' :
  balances_nonneg db -> insert auth new db = Ok db' -> balances_nonneg db'.
Proof.
  intros Hdb H. apply insert_ok_inv in H.
  destruct H as (_ & _ & _ & Hc & ->).
  unfold balances_nonneg in *. simpl.
  unfold written_rows_check in Hc. rewrite forallb_forall in Hc.
  rewrite Forall_forall in *. intros p' Hin.
  rewrite in_map_iff in Hin. destruct Hin as [p [<- Hin]].
  destruct (uuid_eqb (p_id p) (t_user_id new)) eqn:Ho.
  - specialize (Hc _ (in_map _ _ _ Hin)).
    rewrite fire_trigger_id, Ho in Hc. simpl in Hc.
    now apply profiles_check_spec.
  - rewrite fire_trigger_other by assumption. now apply Hdb.
Qed.

Lemma handle_balances_nonneg ty e s db :
  balances_nonneg db -> balances_nonneg (snd (handle ty e s db)).
Proof.
  intros Hdb. destruct (handle_database ty e s db) as [->|H]; [assumption|].
  destruct H as (uid & a & _ & _ & _ & H).
  now apply (insert_balances_nonneg _ _ _ _ Hdb H).
Qed.

(** C1. For every account and every sequence of submitted deposits and
    withdrawals, accepted or not, [btc_balance] and [usd_balance] of every
    account are non-negative after every operation of the sequence,
    whatever the balance trigger writes: the CHECK constraints of
    [profiles] reject an insert whose trigger would leave a balance
    negative. *)
Theorem balances_nonneg_after_every_operation :
  forall (cs : list submission) (s : Dashboard) (db : database),
    balances_nonneg db ->
    Forall (fun w => balances_nonneg (snd w))
           (submit_all Number balance_trigger cs (s, db)).
Proof.
  induction cs as [|c cs IH]; intros s db Hdb; simpl; constructor.
  - unfold submit. simpl. now apply handle_balances_nonneg.
  - destruct (submit Number balance_trigger c (s, db)) as [s' db'] eqn:E.
    apply IH. change db' with (snd (s', db')). rewrite <- E.
    unfold submit. simpl. now apply handle_balances_nonneg.
Qed.

(** C3. A submission, deposit or withdrawal, whose amount is empty, not a
    number, zero or negative raises the toast "Please enter a valid amount"
    and returns: the database (transactions and balances) and the rest of
    the dashboard state are as before. *)
Theorem invalid_amount_is_rejected :
  forall (ty : submit_type) (e : env) (s : Dashboard) (db : database),
    amount s = EmptyString \/
    Number (amount s) = NaN \/
    Number (amount s) = NegInfinity \/
    (exists q, Number (amount s) = Num q /\ (q <= 0)%Q) ->
    handle ty e s db =
    (raise_toast (toast_error "Please enter a valid amount") s, db).
Proof.
  intros ty e s db H. apply handle_invalid. unfold invalid_amount.
  destruct H as [H|[H|H]].
  - rewrite H. reflexivity.
  - rewrite H. simpl. now rewrite orb_true_r.
  - assert (Hle : number_le (Number (amount s)) (Num 0) = true)
      by (apply number_le_zero_spec; tauto).
    rewrite Hle. now rewrite orb_true_r.
Qed.

(** C2, as amended. A withdrawal whose amount is a number above the
    [btc_balance] of the profile the dashboard holds raises the toast
    "Insufficient balance" and returns: no request is sent, the database
    and the rest of the dashboard state are as before. *)
Theorem withdrawal_above_held_balance_is_rejected :
  forall (e : env) (s : Dashboard) (db : database) (p : Profile) (a : Q),
    profile s = Some p ->
    amount s <> EmptyString ->
    Number (amount s) = Num a ->
    (0 <= btc_balance p)%Q ->
    (btc_balance p < a)%Q ->
    handle submit_withdrawal e s db =
    (raise_toast (toast_error "Insufficient balance") s, db).
Proof.
  intros e s db p a Hp Hne Hn H0 Hlt. apply handle_insufficient.
  - unfold invalid_amount. rewrite Hn. simpl.
    apply String.eqb_neq in Hne. rewrite Hne. simpl.
    destruct (Qle_bool a 0) eqn:E; [|reflexivity].
    apply Qle_bool_iff in E. exfalso.
    apply (Qlt_not_le (btc_balance p) a Hlt).
    now apply Qle_trans with 0%Q.
  - unfold insufficient_balance. rewrite Hn, Hp. simpl.
    now apply number_gt_Num.
Qed.

(** ** What a call appends to [transactions] *)

Lemma handle_appends ty e s db :
  exists l,
    db_transactions (snd (handle ty e s db)) = db_transactions db ++ l /\
    (l = [] \/
     exists uid a,
       user s = Some uid /\ Number (amount s) = Num a /\ (0 < a)%Q /\
       l = [submitted_row uid ty a e]).
Proof.
  destruct (handle_database ty e s db) as [->|H].
  - exists []. split; [now rewrite app_nil_r | now left].
  - destruct H as (uid & a & Hu & Hn & Ha & H).
    apply insert_ok_inv in H. destruct H as (_ & _ & _ & _ & ->).
    exists [submitted_row uid ty a e]. split; [reflexivity|].
    right. now exists uid, a.
Qed.

(** C7, as amended. Every record that [handleTransaction] adds to
    [transactions] has a strictly positive amount: a call adds at most one
    record, behind the guard [Number(amount) <= 0]. *)
Theorem dashboard_records_have_positive_amount :
  forall (ty : submit_type) (e : env) (s : Dashboard) (db : database),
  exists l,
    db_transactions (snd (handle ty e s db)) = db_transactions db ++ l /\
    (List.length l <= 1)%nat /\
    Forall (fun t => (0 < t_amount t)%Q) l.
Proof.
  intros ty e s db. destruct (handle_appends ty e s db) as (l & Hl & H).
  exists l. split; [assumption|].
  destruct H as [->|(uid & a & _ & _ & Ha & ->)]; simpl.
  - split; [lia | constructor].
  - split; [lia|]. now repeat constructor.
Qed.

(** ** The guard of a withdrawal reads [btc_balance] only *)






End Handler.

(** ** The listing: [ORDER BY created_at DESC LIMIT 10] *)

Lemma insert_desc_perm t l : Permutation (insert_desc t l) (t :: l).
Proof.
  induction l as [|x l IH]; simpl; [reflexivity|].
  destruct (t_created_at x <? t_created_at t); [reflexivity|].
  rewrite IH. apply perm_swap.
Qed.

Lemma order_desc_perm l : Permutation (order_desc l) l.
Proof.
  induction l as [|x l IH]; simpl; [reflexivity|].
  rewrite insert_desc_perm. now constructor.
Qed.

Lemma insert_desc_sorted t l :
  newest_first l -> newest_first (insert_desc t l).
Proof.
  unfold newest_first.
  induction l as [|x l IH]; intros Hs; simpl.
  - repeat constructor.
  - apply StronglySorted_inv in Hs. destruct Hs as [Hs Hx].
    destruct (t_created_at x <? t_created_at t) eqn:E.
    + apply Z.ltb_lt in E. constructor.
      * now constructor.
      * constructor; [lia|].
        eapply Forall_impl; [|exact Hx]. simpl. intros y Hy. lia.
    + apply Z.ltb_ge in E. constructor.
      * now apply IH.
      * eapply Permutation_Forall.
        { symmetry. apply insert_desc_perm. }
        now constructor.
Qed.

Lemma order_desc_sorted l : newest_first (order_desc l).
Proof.
  induction l as [|x l IH]; simpl.
  - constructor.
  - now apply insert_desc_sorted.
Qed.

Lemma newest_first_app l1 l2 :
  newest_first (l1 ++ l2) ->
  newest_first l1 /\
  Forall (fun r => Forall (fun t => t_created_at r <= t_created_at t) l1) l2.
Proof.
  unfold newest_first. induction l1 as [|x l1 IH]; simpl; intros Hs.
  - split; [constructor|]. apply Forall_forall. intros; constructor.
  - apply StronglySorted_inv in Hs. destruct Hs as [Hs Hx].
    destruct (IH Hs) as [H1 H2]. apply Forall_app in Hx. destruct Hx as [Hx1 Hx2].
    split.
    + now constructor.
    + rewrite Forall_forall in *. intros r Hr. constructor.
      * now apply Hx2.
      * now apply H2.
Qed.

Lemma newest_first_strict l :
  newest_first l -> NoDup (map t_created_at l) -> strictly_newest_first l.
Proof.
  unfold newest_first, strictly_newest_first.
  induction l as [|x l IH]; intros Hs Hd; [constructor|].
  apply StronglySorted_inv in Hs. destruct Hs as [Hs Hx].
  simpl in Hd. apply NoDup_cons_iff in Hd. destruct Hd as [Hn Hd].
  constructor; [now apply IH|].
  rewrite Forall_forall in *. intros y Hy.
  specialize (Hx y Hy).
  assert (t_created_at y <> t_created_at x).
  { intros Heq. apply Hn. rewrite <- Heq. now apply in_map. }
  lia.
Qed.

Lemma own_transactions_spec auth i db t :
  In t (own_transactions auth i db) <->
  In t (db_transactions db) /\ auth = Some i /\ t_user_id t = i.
Proof.
  unfold own_transactions. rewrite filter_In, andb_true_iff.
  unfold auth_uid_is. split.
  - intros [Hin [Ha He]]. apply uuid_eqb_eq in He.
    destruct auth as [u|]; [|discriminate].
    apply uuid_eqb_eq in Ha. subst. auto.
  - intros [Hin [-> <-]]. rewrite uuid_eqb_refl. auto.
Qed.

(** C6, as amended. The listing that [fetchTransactions] stores holds at
    most 10 records, all of them records of the user, ordered by
    [created_at] descending: no record comes before a newer one, and no
    record left out is newer than a listed one. Records of the same
    [created_at] may follow one another; the order is strict when the
    user's records have pairwise distinct [created_at]. *)
Theorem listing_at_most_ten_newest_first :
  forall (s : Dashboard) (db : database) (uid : uuid),
    user s = Some uid ->
    let own := own_transactions (Some uid) uid db in
    let l := transactions (fetchTransactions s db) in
    (List.length l <= 10)%nat /\
    newest_first l /\
    (exists rest,
       Permutation (l ++ rest) own /\
       Forall (fun r => Forall (fun t => t_created_at r <= t_created_at t) l)
              rest) /\
    (NoDup (map t_created_at own) -> strictly_newest_first l).
Proof.
  intros s db uid Hu own l.
  assert (Hl : l = firstn 10 (order_desc own)).
  { unfold l, fetchTransactions, select_transactions. now rewrite Hu. }
  assert (Hsplit : order_desc own = l ++ skipn 10 (order_desc own)).
  { rewrite Hl. symmetry. apply firstn_skipn. }
  assert (Hsorted := order_desc_sorted own). rewrite Hsplit in Hsorted.
  apply newest_first_app in Hsorted. destruct Hsorted as [Hs1 Hs2].
  assert (Hperm : Permutation (l ++ skipn 10 (order_desc own)) own).
  { rewrite <- Hsplit. apply order_desc_perm. }
  repeat split.
  - rewrite Hl. apply firstn_le_length.
  - exact Hs1.
  - exists (skipn 10 (order_desc own)). now split.
  - intros Hd. apply newest_first_strict; [exact Hs1|].
    apply (Permutation_map t_created_at) in Hperm. symmetry in Hperm.
    apply (Permutation_NoDup Hperm) in Hd.
    rewrite map_app in Hd. now apply NoDup_app_remove_r in Hd.
Qed.



Lemma transactions_fetchTransactions s db uid :
  user s = Some uid ->
  transactions (fetchTransactions s db)
  = firstn 10 (order_desc (own_transactions (Some uid) uid db)).
Proof.
  intros Hu. unfold fetchTransactions, select_transactions. now rewrite Hu.
Qed.

Section RoundTrip.

Variable Number : string -> number.
Variable balance_trigger :
  transactions_row -> decimal * decimal -> decimal * decimal.

Abbreviation handle := (handleTransaction Number balance_trigger).

Lemma accepted_inv ty e s db uid a :
  user s = Some uid ->
  Number (amount s) = Num a ->
  accepted Number balance_trigger ty e s db = true ->
  exists db',
    insert_transaction balance_trigger (Some uid) (submitted_row uid ty a e) db
    = Ok db' /\
    handle ty e s db =
    (setLoading false
       (fetchTransactions
          (fetchProfile
             (setAmount EmptyString
                (raise_toast
                   (toast_success (String.append (type_name ty) " successful"))
                   (setLoading true s))) db') db'), db').
Proof.
  intros Hu Hn Ha. unfold accepted in Ha.
  apply andb_true_iff in Ha. destruct Ha as [Ha Hi].
  apply andb_true_iff in Ha. destruct Ha as [Hv Hb].
  apply negb_true_iff in Hv, Hb.
  destruct (insert_submitted Number balance_trigger s ty e db) as [db'|] eqn:Hs;
    [|discriminate].
  exists db'. split.
  - unfold insert_submitted in Hs. now rewrite Hu, Hn in Hs.
  - now apply handle_ok.
Qed.


End RoundTrip.

(** ** The row of the owner *)

Lemma find_fire_trigger trig new id ps :
  find (fun p => uuid_eqb (p_id p) id) (map (fire_trigger trig new) ps)
  = option_map (fire_trigger trig new)
               (find (fun p => uuid_eqb (p_id p) id) ps).
Proof.
  induction ps as [|p ps IH]; simpl; [reflexivity|].
  rewrite fire_trigger_id.
  now destruct (uuid_eqb (p_id p) id).
Qed.

Lemma filter_absent id ps :
  ~ In id (map p_id ps) ->
  filter (fun p => auth_uid_is (Some id) (p_id p) && uuid_eqb (p_id p) id) ps
  = [].
Proof.
  induction ps as [|p ps IH]; cbn [map filter]; intros H; [reflexivity|].
  destruct (uuid_eqb (p_id p) id) eqn:E.
  - apply uuid_eqb_eq in E. exfalso. apply H. now left.
  - rewrite andb_false_r. apply IH. intros Hin. apply H. now right.
Qed.

Lemma filter_single id ps p :
  NoDup (map p_id ps) ->
  find (fun p => uuid_eqb (p_id p) id) ps = Some p ->
  filter (fun p => auth_uid_is (Some id) (p_id p) && uuid_eqb (p_id p) id) ps
  = [p].
Proof.
  induction ps as [|q ps IH]; cbn [map find filter]; intros Hd Hf;
    [discriminate|].
  apply NoDup_cons_iff in Hd. destruct Hd as [Hn Hd].
  destruct (uuid_eqb (p_id q) id) eqn:E.
  - injection Hf as ->. apply uuid_eqb_eq in E. subst id.
    rewrite filter_absent by assumption.
    cbn [auth_uid_is]. now rewrite uuid_eqb_refl.
  - rewrite andb_false_r. now apply IH.
Qed.

Lemma select_profile_stored db uid p :
  profiles_pkey db ->
  stored_profile uid db = Some p ->
  select_profile (Some uid) (Some uid) db
  = Ok {| btc_balance := p_btc_balance p; usd_balance := p_usd_balance p |}.
Proof.
  intros Hk Hp. unfold select_profile.
  now rewrite (filter_single uid (db_profiles db) p Hk Hp).
Qed.

Section Acceptance.

Variable Number : string -> number.

Lemma accepted_amount trig ty e s db :
  accepted Number trig ty e s db = true ->
  exists uid a,
    user s = Some uid /\ Number (amount s) = Num a /\ (0 < a)%Q.
Proof.
  unfold accepted. intros H.
  apply andb_true_iff in H. destruct H as [H Hi].
  apply andb_true_iff in H. destruct H as [Hv _].
  apply negb_true_iff in Hv.
  unfold insert_submitted in Hi.
  destruct (user s) as [uid|]; [|discriminate].
  destruct (Number (amount s)) as [|a| |] eqn:Hn; simpl in Hi; try discriminate.
  exists uid, a. repeat split.
  unfold invalid_amount in Hv. rewrite Hn in Hv.
  apply orb_false_iff in Hv. destruct Hv as [_ Hle]. simpl in Hle.
  apply Qnot_le_lt. intros Hq. apply Qle_bool_iff in Hq. congruence.
Qed.

End Acceptance.

(** ** Provisioning *)

Lemma has_profile_false_filter id db :
  has_profile id db = false ->
  filter (fun p => uuid_eqb (p_id p) id) (db_profiles db) = [].
Proof.
  unfold has_profile. induction (db_profiles db) as [|p ps IH]; simpl;
    [reflexivity|].
  intros H. apply orb_false_iff in H. destruct H as [H1 H2].
  rewrite H1. now apply IH.
Qed.

Lemma register_identity_balances_nonneg new t db db' :
  balances_nonneg db ->
  register_identity new t db = Ok db' ->
  balances_nonneg db'.
Proof.
  unfold register_identity, handle_new_user, balances_nonneg.
  intros Hdb H.
  destruct (has_user (u_id new) db); [discriminate|].
  destruct (has_profile (u_id new) _); [discriminate|].
  destruct (negb (has_user (u_id new) _)); [discriminate|].
  destruct (username_taken (u_email new) _); [discriminate|].
  injection H as <-. simpl. apply Forall_app. split; [assumption|].
  repeat constructor; simpl; apply Qle_refl.
Qed.

(** C9. A registration of a new identity that goes through fires
    [handle_new_user] for the new row and leaves exactly one row of
    [profiles] for that identity, appended to the table, with the e-mail as
    username and both balances zero; registering the same identity again is
    refused, so the provisioning does not run a second time. *)
Theorem registration_provisions_one_zero_account :
  forall (new : users_row) (t : timestamptz) (db db' : database),
    register_identity new t db = Ok db' ->
    db_profiles db' = db_profiles db ++ [new_profile new t] /\
    filter (fun p => uuid_eqb (p_id p) (u_id new)) (db_profiles db')
    = [new_profile new t] /\
    p_btc_balance (new_profile new t) = 0%Q /\
    p_usd_balance (new_profile new t) = 0%Q /\
    db_transactions db' = db_transactions db /\
    forall t', register_identity new t' db' = Err unique_violation.
Proof.
  intros new t db db' H. unfold register_identity in H.
  destruct (has_user (u_id new) db) eqn:Hu; [discriminate|].
  unfold handle_new_user in H.
  destruct (has_profile (u_id new) _) eqn:Hp; [discriminate|].
  destruct (negb (has_user (u_id new) _)) eqn:Hf; [discriminate|].
  destruct (username_taken (u_email new) _); [discriminate|].
  injection H as <-. simpl.
  repeat split.
  - rewrite filter_app. simpl. rewrite uuid_eqb_refl.
    change (has_profile (u_id new) db = false) in Hp.
    now rewrite (has_profile_false_filter _ _ Hp).
  - intros t'. unfold register_identity, has_user in *. simpl in *.
    apply negb_false_iff in Hf. now rewrite Hf.
Qed.

(** ** The session of [alice] *)

Example register_alice :
  register_identity alice 100 empty_database = Ok alice_db.
Proof. reflexivity. Qed.

Lemma alice_db_balances : balances_nonneg alice_db.
Proof.
  unfold balances_nonneg. simpl. repeat constructor; simpl; apply Qle_refl.
Defined.

Lemma alice_db_pkey : profiles_pkey alice_db.
Proof.
  unfold profiles_pkey. simpl. constructor; [intros [] | constructor].
Defined.

(** The example of the spec, step by step, on a table whose balances the
    ledger trigger moves: the deposit of 0.5 is accepted, the withdrawal of
    1.0 is answered with "Insufficient balance", the withdrawal of 0.5 is
    accepted and empties the account. *)
Example spec_example_runs :
  map (fun w => (toasts (fst w),
                 option_map btc_balance (profile (fst w)),
                 map t_id (db_transactions (snd w))))
      (submit_all decimal_Number ledger_trigger spec_example alice_mounted)
  = [([toast_success "deposit successful"], Some (1 # 2), ["tx1"%string]);
     ([toast_error "Insufficient balance";
       toast_success "deposit successful"], Some (1 # 2), ["tx1"%string]);
     ([toast_success "withdrawal successful";
       toast_error "Insufficient balance";
       toast_success "deposit successful"], Some (0 # 4),
      ["tx1"%string; "tx3"%string])].
Proof. vm_compute. reflexivity. Qed.

Lemma balances_nonneg_after_every_operation_witness :
  balances_nonneg alice_db /\
  Forall (fun w => balances_nonneg (snd w))
         (submit_all decimal_Number ledger_trigger spec_example alice_mounted).
Proof.
  split.
  - exact alice_db_balances.
  - apply (balances_nonneg_after_every_operation decimal_Number ledger_trigger
             spec_example (fst alice_mounted) alice_db).
    exact alice_db_balances.
Defined.

(** ** Invalid amounts *)


Lemma invalid_amount_is_rejected_witness :
  (amount (typed "abc" alice_mounted) = EmptyString \/
   decimal_Number (amount (typed "abc" alice_mounted)) = NaN \/
   decimal_Number (amount (typed "abc" alice_mounted)) = NegInfinity \/
   (exists q, decimal_Number (amount (typed "abc" alice_mounted)) = Num q
              /\ (q <= 0)%Q)) /\
  handleTransaction decimal_Number ledger_trigger submit_deposit
                    (at_instant "tx1" 200) (typed "abc" alice_mounted) alice_db
  = (raise_toast (toast_error "Please enter a valid amount")
                 (typed "abc" alice_mounted), alice_db).
Proof.
  assert (H : amount (typed "abc" alice_mounted) = EmptyString \/
              decimal_Number (amount (typed "abc" alice_mounted)) = NaN \/
              decimal_Number (amount (typed "abc" alice_mounted)) = NegInfinity \/
              (exists q, decimal_Number (amount (typed "abc" alice_mounted)) = Num q
                         /\ (q <= 0)%Q)).
  { right. left. reflexivity. }
  split.
  - exact H.
  - apply (invalid_amount_is_rejected decimal_Number ledger_trigger
             submit_deposit (at_instant "tx1" 200) (typed "abc" alice_mounted)
             alice_db H).
Defined.

(** Zero and a negative amount go the same way, for a withdrawal too. *)
Example zero_and_negative_rejected :
  toasts (fst (ledger_submit (withdrawal_of "0" "tx1" 200) alice_mounted))
  = [toast_error "Please enter a valid amount"] /\
  snd (ledger_submit (withdrawal_of "0" "tx1" 200) alice_mounted) = alice_db /\
  toasts (fst (ledger_submit (deposit_of "-2.5" "tx1" 200) alice_mounted))
  = [toast_error "Please enter a valid amount"] /\
  snd (ledger_submit (deposit_of "-2.5" "tx1" 200) alice_mounted) = alice_db.
Proof. vm_compute. repeat split. Qed.

(** ** Withdrawals above the balance *)


Lemma withdrawal_above_held_balance_is_rejected_witness :
  profile over_asking = Some {| btc_balance := 1 # 4; usd_balance := 0 |} /\
  amount over_asking <> EmptyString /\
  decimal_Number (amount over_asking) = Num (3 # 4) /\
  (0 <= 1 # 4)%Q /\
  (1 # 4 < 3 # 4)%Q /\
  handleTransaction decimal_Number ledger_trigger submit_withdrawal
                    (at_instant "tx3" 400) over_asking (snd tab_a_withdrew)
  = (raise_toast (toast_error "Insufficient balance") over_asking, snd tab_a_withdrew).
Proof.
  assert (H1 : profile over_asking = Some {| btc_balance := 1 # 4; usd_balance := 0 |})
    by reflexivity.
  assert (H2 : amount over_asking <> EmptyString) by (simpl; discriminate).
  assert (H3 : decimal_Number (amount over_asking) = Num (3 # 4)) by reflexivity.
  assert (H4 : (0 <= 1 # 4)%Q) by (unfold Qle; simpl; lia).
  assert (H5 : (1 # 4 < 3 # 4)%Q) by (unfold Qlt; simpl; lia).
  split; [exact H1|]. split; [exact H2|]. split; [exact H3|].
  split; [exact H4|]. split; [exact H5|].
  apply (withdrawal_above_held_balance_is_rejected decimal_Number
           ledger_trigger (at_instant "tx3" 400) over_asking (snd tab_a_withdrew)
           {| btc_balance := 1 # 4; usd_balance := 0 |} (3 # 4)
           H1 H2 H3 H4 H5).
Defined.

(** What tab B goes through: the table says 0.25, the tab holds 1, the
    withdrawal of 0.5 passes the guard, the insert is refused by
    [CHECK (btc_balance >= 0)]; the toast is "Failed to process
    withdrawal" and the database is as before. *)
Example stale_tab_outcome :
  option_map p_btc_balance (stored_profile alice_id (snd tab_a_withdrew))
  = Some (1 # 4) /\
  option_map btc_balance (profile tab_b) = Some 1%Q /\
  toasts (fst tab_b_withdraws) = [toast_error "Failed to process withdrawal"] /\
  snd tab_b_withdraws = snd tab_a_withdrew.
Proof. vm_compute. repeat split. Qed.

(** C2, counterexample. With the balance 0.25 stored and the balance 1
    held by tab B, the withdrawal of 0.5 exceeds the account's balance and
    is not answered with "Insufficient balance", neither on the migration
    as it stands nor under the ledger trigger. *)
Lemma withdrawal_above_stored_balance_not_rejected :
  ~ withdrawal_above_stored_balance_rejected decimal_Number ledger_trigger /\
  ~ withdrawal_above_stored_balance_rejected decimal_Number no_trigger.
Proof.
  assert (Hb : balances_nonneg (snd tab_a_withdrew)).
  { unfold balances_nonneg. vm_compute db_profiles.
    repeat constructor; unfold Qle; simpl; lia. }
  assert (Hk : profiles_pkey (snd tab_a_withdrew)).
  { unfold profiles_pkey. vm_compute map.
    constructor; [intros [] | constructor]. }
  assert (Hlt : (1 # 4 < 1 # 2)%Q) by (unfold Qlt; simpl; lia).
  assert (Hne : amount stale_asking <> EmptyString) by (simpl; discriminate).
  split; intros H.
  - specialize (H (at_instant "tx3" 400) stale_asking (snd tab_a_withdrew)
                  alice_id
                  {| p_id := alice_id;
                     p_username := Some "alice@example.org"%string;
                     p_btc_balance := 1 # 4;
                     p_usd_balance := 0;
                     p_created_at := 100;
                     p_updated_at := 100 |}
                  (1 # 2) Hb Hk eq_refl eq_refl Hne eq_refl Hlt).
    vm_compute in H. discriminate H.
  - specialize (H (at_instant "tx3" 400) stale_asking (snd tab_a_withdrew)
                  alice_id
                  {| p_id := alice_id;
                     p_username := Some "alice@example.org"%string;
                     p_btc_balance := 1 # 4;
                     p_usd_balance := 0;
                     p_created_at := 100;
                     p_updated_at := 100 |}
                  (1 # 2) Hb Hk eq_refl eq_refl Hne eq_refl Hlt).
    vm_compute in H. discriminate H.
Qed.

(** The same request on the migration as it stands, without a trigger:
    the guard is passed as well, the insert goes through, the withdrawal
    is recorded as completed and the balance stays 0.25. *)
Example stale_tab_without_trigger :
  let w := handleTransaction decimal_Number no_trigger submit_withdrawal
             (at_instant "tx3" 400) stale_asking (snd tab_a_withdrew) in
  toasts (fst w) = [toast_success "withdrawal successful"] /\
  map t_id (db_transactions (snd w)) = ["tx1"; "tx2"; "tx3"]%string /\
  db_profiles (snd w) = db_profiles (snd tab_a_withdrew).
Proof. vm_compute. repeat split. Qed.

(** ** The listing *)

(** C6, counterexample. Two records of the user carry the same
    [created_at]; the listing holds both, one after the other, and is not
    strictly descending. *)
Lemma listing_not_strictly_descending : ~ listing_strictly_descending.
Proof.
  intros H.
  destruct (H (initial_dashboard (Some alice_id)) twin_db alice_id eq_refl)
    as [_ Hs].
  vm_compute in Hs.
  apply StronglySorted_inv in Hs. destruct Hs as [_ Hs].
  apply Forall_inv in Hs. discriminate Hs.
Qed.

Example twin_listing :
  map (fun t => (t_id t, t_created_at t))
      (transactions (fetchTransactions (initial_dashboard (Some alice_id))
                                       twin_db))
  = [("tx2"%string, 200); ("tx1"%string, 200)].
Proof. reflexivity. Qed.

Lemma listing_at_most_ten_newest_first_witness :
  user (fst alice_mounted) = Some alice_id /\
  let own := own_transactions (Some alice_id) alice_id twin_db in
  let l := transactions (fetchTransactions (fst alice_mounted) twin_db) in
  (List.length l <= 10)%nat /\
  newest_first l /\
  (exists rest,
     Permutation (l ++ rest) own /\
     Forall (fun r => Forall (fun t => t_created_at r <= t_created_at t) l)
            rest) /\
  (NoDup (map t_created_at own) -> strictly_newest_first l).
Proof.
  split; [reflexivity|].
  apply (listing_at_most_ten_newest_first (fst alice_mounted) twin_db alice_id
           eq_refl).
Defined.

(** ** Records that do not come from the dashboard *)

(** C7, counterexample. The table accepts a record of amount -1 sent by
    its owner: [amount decimal NOT NULL] is the only constraint on the
    column. This is so under the ledger trigger and without any trigger. *)
Lemma record_with_negative_amount_accepted :
  ~ every_record_has_positive_amount ledger_trigger /\
  ~ every_record_has_positive_amount no_trigger.
Proof.
  split; intros H.
  - specialize (H (Some alice_id) (direct_row "tx9" trade (-1) pending 500)
                  alice_db _ (Forall_nil _) eq_refl).
    simpl in H. apply Forall_inv in H. discriminate H.
  - specialize (H (Some alice_id) (direct_row "tx9" trade (-1) pending 500)
                  alice_db _ (Forall_nil _) eq_refl).
    simpl in H. apply Forall_inv in H. discriminate H.
Qed.

(** ** Round trip *)


Example eleven_deposits_listing :
  let w := last (submit_all decimal_Number ledger_trigger ten_more_deposits
                   (ledger_submit (deposit_of "1" "tx01" 200) alice_mounted))
                alice_mounted in
  map t_id (transactions (fst w))
  = ["tx11"; "tx10"; "tx09"; "tx08"; "tx07"; "tx06"; "tx05"; "tx04"; "tx03";
     "tx02"]%string /\
  map t_id (db_transactions (snd w))
  = ["tx01"; "tx02"; "tx03"; "tx04"; "tx05"; "tx06"; "tx07"; "tx08"; "tx09";
     "tx10"; "tx11"]%string.
Proof. vm_compute. split; reflexivity. Qed.


(** ** Provisioning of [alice] *)

Lemma registration_provisions_one_zero_account_witness :
  register_identity alice 100 empty_database = Ok alice_db /\
  db_profiles alice_db = db_profiles empty_database ++ [new_profile alice 100] /\
  filter (fun p => uuid_eqb (p_id p) (u_id alice)) (db_profiles alice_db)
  = [new_profile alice 100] /\
  p_btc_balance (new_profile alice 100) = 0%Q /\
  p_usd_balance (new_profile alice 100) = 0%Q /\
  db_transactions alice_db = db_transactions empty_database /\
  forall t', register_identity alice t' alice_db = Err unique_violation.
Proof.
  split; [reflexivity|].
  apply (registration_provisions_one_zero_account alice 100 empty_database
           alice_db eq_refl).
Defined.

(** * Beyond the claims *)

(** ** Membership tests *)

Lemma has_user_In id db :
  has_user id db = true <-> In id (map u_id (db_users db)).
Proof.
  unfold has_user. rewrite existsb_exists, in_map_iff. split.
  - intros [u [Hin He]]. exists u. apply uuid_eqb_eq in He. auto.
  - intros [u [He Hin]]. exists u. split; [assumption|]. now apply uuid_eqb_eq.
Qed.

Lemma has_profile_In id db :
  has_profile id db = true <-> In id (map p_id (db_profiles db)).
Proof.
  unfold has_profile. rewrite existsb_exists, in_map_iff. split.
  - intros [p [Hin He]]. exists p. apply uuid_eqb_eq in He. auto.
  - intros [p [He Hin]]. exists p. split; [assumption|]. now apply uuid_eqb_eq.
Qed.

Lemma has_transaction_In id db :
  has_transaction id db = true <-> In id (map t_id (db_transactions db)).
Proof.
  unfold has_transaction. rewrite existsb_exists, in_map_iff. split.
  - intros [t [Hin He]]. exists t. apply uuid_eqb_eq in He. auto.
  - intros [t [He Hin]]. exists t. split; [assumption|]. now apply uuid_eqb_eq.
Qed.

Lemma not_true_false (b : bool) : b = false <-> ~ b = true.
Proof. destruct b; split; congruence. Qed.

Lemma username_taken_In n db :
  username_taken (Some n) db = true <-> In n (usernames (db_profiles db)).
Proof.
  unfold username_taken, usernames. rewrite existsb_exists, in_flat_map.
  split; intros [p [Hin H]]; exists p; (split; [assumption|]).
  - destruct (p_username p) as [m|]; [|discriminate].
    apply String.eqb_eq in H. now left.
  - destruct (p_username p) as [m|]; [|contradiction].
    destruct H as [->|[]]. apply String.eqb_refl.
Qed.

Lemma NoDup_snoc {A} (l : list A) (x : A) :
  NoDup l -> ~ In x l -> NoDup (l ++ [x]).
Proof.
  intros Hl Hx. apply NoDup_app; [assumption | repeat constructor; intros [] |].
  intros y Hy [<-|[]]. contradiction.
Qed.

(** ** The constraints under the two writes *)

Lemma usernames_fire_trigger trig new ps :
  usernames (map (fire_trigger trig new) ps) = usernames ps.
Proof.
  unfold usernames. induction ps as [|p ps IH]; simpl; [reflexivity|].
  rewrite IH. f_equal. unfold fire_trigger.
  now destruct (uuid_eqb (p_id p) (t_user_id new)).
Qed.

Lemma insert_consistent trig auth new db db' :
  db_consistent db ->
  insert_transaction trig auth new db = Ok db' ->
  db_consistent db'.
Proof.
  intros (Hu & Hp & Ht & Hpf & Htf & Hn & Hb) H.
  assert (Hb' := insert_balances_nonneg trig auth new db db' Hb H).
  apply insert_ok_inv in H. destruct H as (_ & Hfresh & Hown & _ & ->).
  assert (Hhas : forall id,
             has_profile id
               {| db_users := db_users db;
                  db_profiles := map (fire_trigger trig new) (db_profiles db);
                  db_transactions := db_transactions db ++ [new] |}
             = has_profile id db).
  { intros id. apply eq_true_iff_eq. rewrite !has_profile_In. simpl.
    now rewrite fire_trigger_ids. }
  unfold db_consistent, users_pkey, profiles_pkey, transactions_pkey,
    profiles_fkey, transactions_fkey, usernames_unique in *. simpl.
  repeat split; try assumption.
  - now rewrite fire_trigger_ids.
  - rewrite map_app. simpl. apply NoDup_snoc; [assumption|].
    rewrite <- has_transaction_In. now apply not_true_false.
  - rewrite Forall_forall in *. intros p' Hin.
    apply in_map_iff in Hin. destruct Hin as [p [<- Hin]].
    rewrite fire_trigger_id. now apply Hpf.
  - apply Forall_app. split.
    + rewrite Forall_forall in *. intros t Hin. rewrite Hhas. now apply Htf.
    + constructor; [|constructor]. now rewrite Hhas.
  - now rewrite usernames_fire_trigger.
Qed.

Lemma register_ok_inv new t db db' :
  register_identity new t db = Ok db' ->
  has_user (u_id new) db = false /\
  has_profile (u_id new) db = false /\
  username_taken (u_email new) db = false /\
  db' = {| db_users := db_users db ++ [new];
           db_profiles := db_profiles db ++ [new_profile new t];
           db_transactions := db_transactions db |}.
Proof.
  unfold register_identity, handle_new_user. intros H.
  destruct (has_user (u_id new) db) eqn:Hu; [discriminate|].
  destruct (has_profile (u_id new) _) eqn:Hp; [discriminate|].
  destruct (negb (has_user (u_id new) _)); [discriminate|].
  destruct (username_taken (u_email new) _) eqn:Hn; [discriminate|].
  injection H as <-. repeat split; assumption.
Qed.

Lemma register_consistent new t db db' :
  db_consistent db ->
  register_identity new t db = Ok db' ->
  db_consistent db'.
Proof.
  intros (Hu & Hp & Ht & Hpf & Htf & Hn & Hb) H.
  assert (Hb' := register_identity_balances_nonneg new t db db' Hb H).
  apply register_ok_inv in H. destruct H as (Hnu & Hnp & Hnn & ->).
  unfold db_consistent, users_pkey, profiles_pkey, transactions_pkey,
    profiles_fkey, transactions_fkey, usernames_unique in *. simpl.
  repeat split; try assumption.
  - rewrite map_app. simpl. apply NoDup_snoc; [assumption|].
    rewrite <- has_user_In. now apply not_true_false.
  - rewrite map_app. simpl. apply NoDup_snoc; [assumption|].
    rewrite <- has_profile_In. now apply not_true_false.
  - apply Forall_app. split.
    + rewrite Forall_forall in *. intros p Hin. specialize (Hpf p Hin).
      apply has_user_In. simpl. rewrite map_app. apply in_or_app. left.
      now apply has_user_In.
    + constructor; [|constructor]. apply has_user_In. simpl.
      rewrite map_app. apply in_or_app. right. now left.
  - rewrite Forall_forall in *. intros x Hin. specialize (Htf x Hin).
    apply has_profile_In. simpl. rewrite map_app. apply in_or_app. left.
    now apply has_profile_In.
  - unfold usernames in *. rewrite flat_map_app. simpl. rewrite app_nil_r.
    destruct (u_email new) as [n|] eqn:He; simpl.
    + apply NoDup_snoc; [assumption|].
      fold (usernames (db_profiles db)). rewrite <- username_taken_In.
      now apply not_true_false.
    + now rewrite app_nil_r.
Qed.

Lemma empty_database_consistent : db_consistent empty_database.
Proof.
  unfold db_consistent, users_pkey, profiles_pkey, transactions_pkey,
    profiles_fkey, transactions_fkey, usernames_unique, balances_nonneg.
  simpl. repeat split; constructor.
Defined.

Lemma execute_consistent trig db st :
  db_consistent db -> db_consistent (execute trig db st).
Proof.
  intros Hdb. destruct st as [new t|auth new]; simpl.
  - destruct (register_identity new t db) as [db'|] eqn:E; [|assumption].
    now apply (register_consistent new t db db').
  - destruct (insert_transaction trig auth new db) as [db'|] eqn:E;
      [|assumption].
    now apply (insert_consistent trig auth new db db').
Qed.

(** X1. Every database that registrations and inserts into [transactions],
    accepted or refused, in any order and by any identities, build from the
    empty one satisfies every constraint the migration declares: the three
    primary keys, the two foreign keys, the uniqueness of usernames and the
    two CHECK constraints on the balances, whatever the balance trigger
    writes. *)
Theorem reachable_database_is_consistent :
  forall (trig : transactions_row -> decimal * decimal -> decimal * decimal)
         (sts : list statement),
    db_consistent (execute_all trig sts empty_database).
Proof.
  intros trig sts. unfold execute_all.
  generalize empty_database empty_database_consistent.
  induction sts as [|st sts IH]; intros db Hdb; simpl; [assumption|].
  apply IH. now apply execute_consistent.
Qed.

(** ** The dashboard on a consistent database *)

Section Session.

Variable Number : string -> number.
Variable balance_trigger :
  transactions_row -> decimal * decimal -> decimal * decimal.

Abbreviation handle := (handleTransaction Number balance_trigger).
Abbreviation run := (submit_all Number balance_trigger).

Lemma handle_consistent ty e s db :
  db_consistent db -> db_consistent (snd (handle ty e s db)).
Proof.
  intros Hdb.
  destruct (handle_database Number balance_trigger ty e s db) as [->|H];
    [assumption|].
  destruct H as (uid & a & _ & _ & _ & H).
  now apply (insert_consistent _ _ _ _ _ Hdb H).
Qed.

(** X2. Along every sequence of submissions on the dashboard, accepted or
    not, the database keeps every declared constraint: no call leaves a
    duplicate key, a record without its profile, a profile without its
    identity, two equal usernames or a negative balance. *)
Theorem submissions_keep_database_consistent :
  forall (cs : list submission) (s : Dashboard) (db : database),
    db_consistent db ->
    Forall (fun w => db_consistent (snd w)) (run cs (s, db)).
Proof.
  induction cs as [|c cs IH]; intros s db Hdb; simpl; constructor.
  - unfold submit. simpl. now apply handle_consistent.
  - destruct (submit Number balance_trigger c (s, db)) as [s' db'] eqn:E.
    apply IH. change db' with (snd (s', db')). rewrite <- E.
    unfold submit. simpl. now apply handle_consistent.
Qed.

(** X4. A record that [handleTransaction] adds belongs to the user of the
    dashboard, is a deposit or a withdrawal as the button says, never a
    trade, is completed, never pending or failed, and carries the id and
    the instant the database drew for the insert. *)
Theorem dashboard_records_are_own_completed_commands :
  forall (ty : submit_type) (e : env) (s : Dashboard) (db : database),
  exists l,
    db_transactions (snd (handle ty e s db)) = db_transactions db ++ l /\
    Forall (fun t => user s = Some (t_user_id t) /\
                     t_type t = tx_type_of ty /\ t_type t <> trade /\
                     t_status t = completed /\
                     t_id t = gen_random_uuid e /\
                     t_created_at t = now e /\
                     ~ In (t_id t) (map t_id (db_transactions db))) l.
Proof.
  intros ty e s db.
  destruct (handle_database Number balance_trigger ty e s db) as [E|H].
  - exists []. split; [now rewrite E, app_nil_r | constructor].
  - destruct H as (uid & a & Hu & _ & _ & H).
    apply insert_ok_inv in H. destruct H as (_ & Hfresh & _ & _ & E).
    rewrite E. simpl. exists [submitted_row uid ty a e].
    split; [reflexivity|]. constructor; [|constructor]. simpl.
    repeat split; try assumption.
    + now destruct ty.
    + rewrite <- has_transaction_In. now apply not_true_false.
Qed.

(** X5. Along every sequence of submissions the history only grows at its
    end: the records present before are still there, unchanged and in the
    same order, after every call; and the sequence neither adds nor removes
    an identity or a profile. *)
Theorem submissions_only_append :
  forall (cs : list submission) (s : Dashboard) (db : database),
    Forall (fun w =>
              (exists l, db_transactions (snd w) = db_transactions db ++ l) /\
              map p_id (db_profiles (snd w)) = map p_id (db_profiles db) /\
              db_users (snd w) = db_users db)
           (run cs (s, db)).
Proof.
  induction cs as [|c cs IH]; intros s db; simpl; constructor.
  - unfold submit. simpl.
    destruct (handle_database Number balance_trigger (sub_type c) (sub_env c)
                (setAmount (sub_amount c) s) db) as [->|H].
    + repeat split. exists []. now rewrite app_nil_r.
    + destruct H as (uid & a & _ & _ & _ & H).
      apply insert_ok_inv in H. destruct H as (_ & _ & _ & _ & ->). simpl.
      repeat split; [now eexists | apply fire_trigger_ids].
  - destruct (submit Number balance_trigger c (s, db)) as [s' db'] eqn:E.
    assert (H0 : (exists l, db_transactions db' = db_transactions db ++ l) /\
                 map p_id (db_profiles db') = map p_id (db_profiles db) /\
                 db_users db' = db_users db).
    { change db' with (snd (s', db')). rewrite <- E. unfold submit. simpl.
      destruct (handle_database Number balance_trigger (sub_type c) (sub_env c)
                  (setAmount (sub_amount c) s) db) as [->|H].
      - repeat split. exists []. now rewrite app_nil_r.
      - destruct H as (uid & a & _ & _ & _ & H).
        apply insert_ok_inv in H. destruct H as (_ & _ & _ & _ & ->). simpl.
        repeat split; [now eexists | apply fire_trigger_ids]. }
    destruct H0 as ([l0 Hl0] & Hp0 & Hu0).
    eapply Forall_impl; [|apply (IH s' db')]. simpl.
    intros w ([l Hl] & Hp & Hu). repeat split.
    + exists (l0 ++ l). now rewrite Hl, Hl0, app_assoc.
    + now rewrite Hp.
    + now rewrite Hu.
Qed.

End Session.

(** ** Reading under the policies *)

Lemma filter_none {A} (f : A -> bool) (l : list A) :
  (forall x, In x l -> f x = false) -> filter f l = [].
Proof.
  induction l as [|x l IH]; intros H; simpl; [reflexivity|].
  rewrite (H x (or_introl eq_refl)). apply IH. intros y Hy. apply H. now right.
Qed.

Lemma auth_uid_is_Some auth id :
  auth_uid_is auth id = true <-> auth = Some id.
Proof.
  destruct auth as [u|]; simpl.
  - rewrite uuid_eqb_eq. split; congruence.
  - split; discriminate.
Qed.

(** X3. A request that carries another identity than the one it asks for,
    or none at all, reads nothing: the listing of the records comes back
    empty and the profile comes back as an error, whatever the tables
    hold. *)
Theorem foreign_reads_return_nothing :
  forall (auth : option uuid) (i : uuid) (db : database),
    auth <> Some i ->
    select_transactions auth (Some i) db = Ok [] /\
    select_profile auth (Some i) db = Err no_single_row.
Proof.
  intros auth i db Hne. split.
  - unfold select_transactions, own_transactions.
    rewrite filter_none; [reflexivity|].
    intros t _. apply not_true_false. rewrite andb_true_iff.
    rewrite auth_uid_is_Some, uuid_eqb_eq. intros [-> <-]. now apply Hne.
  - unfold select_profile. rewrite filter_none; [reflexivity|].
    intros p _. apply not_true_false. rewrite andb_true_iff.
    rewrite auth_uid_is_Some, uuid_eqb_eq. intros [-> <-]. now apply Hne.
Qed.

Lemma stored_profile_None id db :
  stored_profile id db = None -> ~ In id (map p_id (db_profiles db)).
Proof.
  unfold stored_profile. intros H Hin. apply in_map_iff in Hin.
  destruct Hin as [p [He Hin]].
  apply (find_none _ _ H) in Hin. simpl in Hin.
  rewrite He, uuid_eqb_refl in Hin. discriminate.
Qed.

Lemma fetchProfile_stored s db uid p :
  user s = Some uid ->
  profiles_pkey db ->
  stored_profile uid db = Some p ->
  fetchProfile s db
  = setProfile (Some {| btc_balance := p_btc_balance p;
                        usd_balance := p_usd_balance p |}) s.
Proof.
  intros Hu Hk Hp. unfold fetchProfile. rewrite Hu.
  now rewrite (select_profile_stored db uid p Hk Hp).
Qed.

Lemma fetchProfile_missing s db uid :
  user s = Some uid ->
  stored_profile uid db = None ->
  fetchProfile s db = raise_toast (toast_error "Failed to load profile") s.
Proof.
  intros Hu Hp. unfold fetchProfile, select_profile. rewrite Hu.
  now rewrite (filter_absent uid (db_profiles db) (stored_profile_None _ _ Hp)).
Qed.

(** X8. For a signed-in user, [fetchProfile] succeeds exactly when the
    user has a row in [profiles]: it then replaces the profile held and
    raises no toast; when the user has no row, [.single()] comes back with
    an error, "Failed to load profile" is raised and everything held is
    kept. *)
Theorem fetchProfile_loads_iff_row_exists :
  forall (s : Dashboard) (db : database) (uid : uuid),
    user s = Some uid ->
    profiles_pkey db ->
    match stored_profile uid db with
    | Some _ => exists data, fetchProfile s db = setProfile (Some data) s
    | None =>
        fetchProfile s db
        = raise_toast (toast_error "Failed to load profile") s
    end.
Proof.
  intros s db uid Hu Hk.
  destruct (stored_profile uid db) as [p|] eqn:Hp.
  - eexists. now apply (fetchProfile_stored s db uid p).
  - now apply (fetchProfile_missing s db uid).
Qed.

Lemma length_order_desc l : List.length (order_desc l) = List.length l.
Proof. apply Permutation_length, order_desc_perm. Qed.

(** X10. The listing holds ten records or the whole history of the user,
    whichever is shorter: a user with at most ten records sees every one of
    them, a user with more sees exactly ten. *)
Theorem listing_holds_min_of_ten_and_history :
  forall (s : Dashboard) (db : database) (uid : uuid),
    user s = Some uid ->
    let own := own_transactions (Some uid) uid db in
    let l := transactions (fetchTransactions s db) in
    List.length l = Nat.min 10 (List.length own) /\
    ((List.length own <= 10)%nat -> Permutation l own).
Proof.
  intros s db uid Hu own l.
  assert (Hl : l = firstn 10 (order_desc own))
    by (unfold l; now apply transactions_fetchTransactions).
  split.
  - rewrite Hl, length_firstn. now rewrite length_order_desc.
  - intros Hle. rewrite Hl, firstn_all2.
    + apply order_desc_perm.
    + now rewrite length_order_desc.
Qed.

(** ** A fresh account on the dashboard *)

Lemma find_app_none {A} (f : A -> bool) (l1 l2 : list A) :
  find f l1 = None -> find f (l1 ++ l2) = find f l2.
Proof.
  induction l1 as [|x l1 IH]; simpl; [reflexivity|].
  destruct (f x); [discriminate | exact IH].
Qed.

Lemma has_profile_false_stored id db :
  has_profile id db = false -> stored_profile id db = None.
Proof.
  unfold has_profile, stored_profile.
  induction (db_profiles db) as [|p ps IH]; simpl; [reflexivity|].
  intros H. apply orb_false_iff in H. destruct H as [H1 H2].
  rewrite H1. now apply IH.
Qed.

(** X9. On a consistent database, once the registration of an identity
    has gone through, the dashboard mounted for that identity loads at
    once: it holds both balances at zero, an empty listing, and has raised
    no toast. *)
Theorem registered_identity_mounts_on_zero_balances :
  forall (new : users_row) (t : timestamptz) (db db' : database),
    db_consistent db ->
    register_identity new t db = Ok db' ->
    mount (Some (u_id new)) db' =
    {| user := Some (u_id new);
       profile := Some {| btc_balance := 0; usd_balance := 0 |};
       transactions := [];
       amount := EmptyString;
       loading := false;
       toasts := [] |}.
Proof.
  intros new t db db' Hdb H.
  assert (Hdb' := register_consistent new t db db' Hdb H).
  apply register_ok_inv in H. destruct H as (_ & Hnp & _ & ->).
  assert (Hp : stored_profile (u_id new)
                 {| db_users := db_users db ++ [new];
                    db_profiles := db_profiles db ++ [new_profile new t];
                    db_transactions := db_transactions db |}
               = Some (new_profile new t)).
  { unfold stored_profile. simpl. rewrite find_app_none.
    - simpl. now rewrite uuid_eqb_refl.
    - now apply (has_profile_false_stored (u_id new) db). }
  destruct Hdb as (_ & _ & _ & _ & Htf & _).
  destruct Hdb' as (_ & Hk' & _).
  unfold mount.
  rewrite (fetchProfile_stored (initial_dashboard (Some (u_id new))) _
             (u_id new) (new_profile new t) eq_refl Hk' Hp).
  unfold fetchTransactions, select_transactions, own_transactions. simpl.
  rewrite filter_none; [reflexivity|].
  intros x Hin. unfold transactions_fkey in Htf.
  rewrite Forall_forall in Htf. specialize (Htf x Hin).
  destruct (uuid_eqb (t_user_id x) (u_id new)) eqn:E.
  - apply uuid_eqb_eq in E. rewrite E in Htf. congruence.
  - apply andb_false_r.
Qed.

(** ** The update policy of [profiles] *)

Lemma find_map_same_id (f : profiles_row -> profiles_row) id ps :
  (forall p, p_id (f p) = p_id p) ->
  find (fun p => uuid_eqb (p_id p) id) (map f ps)
  = option_map f (find (fun p => uuid_eqb (p_id p) id) ps).
Proof.
  intros Hf. induction ps as [|p ps IH]; simpl; [reflexivity|].
  rewrite Hf. now destruct (uuid_eqb (p_id p) id).
Qed.

Lemma update_row_id auth i b u p : p_id (update_row auth i b u p) = p_id p.
Proof. unfold update_row. now destruct (update_hits auth i p). Qed.

Lemma update_row_miss auth i b u p :
  update_hits auth i p = false -> update_row auth i b u p = p.
Proof. intros H. unfold update_row. now rewrite H. Qed.

Lemma update_hits_row auth i b u p :
  update_hits auth i (update_row auth i b u p) = update_hits auth i p.
Proof. unfold update_hits. now rewrite update_row_id. Qed.

Lemma update_hits_spec auth i p :
  update_hits auth i p = true <-> auth = Some i /\ p_id p = i.
Proof.
  unfold update_hits. rewrite andb_true_iff, auth_uid_is_Some, uuid_eqb_eq.
  split; [intros [-> <-] | intros [-> ->]]; auto.
Qed.

Lemma usernames_update auth i b u ps :
  usernames (map (update_row auth i b u) ps) = usernames ps.
Proof.
  unfold usernames. induction ps as [|p ps IH]; simpl; [reflexivity|].
  rewrite IH. f_equal. unfold update_row.
  now destruct (update_hits auth i p).
Qed.

Lemma update_ok_inv auth i b u db db' :
  update_balances auth i b u db = Ok db' ->
  forallb (fun p => negb (update_hits auth i p) || profiles_check p)
          (map (update_row auth i b u) (db_profiles db)) = true /\
  db' = {| db_users := db_users db;
           db_profiles := map (update_row auth i b u) (db_profiles db);
           db_transactions := db_transactions db |}.
Proof.
  unfold update_balances.
  destruct (forallb _ _); [|discriminate].
  intros H. injection H as <-. now split.
Qed.

(** X12. An update of the balances that goes through keeps every declared
    constraint and reaches no other row than the one of the identity that
    sends it: the records, the identities and every other profile are as
    before, and a request for somebody else's row, or without identity,
    changes nothing at all. *)
Theorem update_reaches_own_row_only :
  forall (auth : option uuid) (i : uuid) (b u : decimal) (db db' : database),
    db_consistent db ->
    update_balances auth i b u db = Ok db' ->
    db_consistent db' /\
    db_users db' = db_users db /\
    db_transactions db' = db_transactions db /\
    (forall j, j <> i -> stored_profile j db' = stored_profile j db) /\
    (auth <> Some i -> db' = db).
Proof.
  intros auth i b u db db' (Hu & Hp & Ht & Hpf & Htf & Hn & Hb) H.
  apply update_ok_inv in H. destruct H as [Hc ->].
  assert (Hids : map p_id (map (update_row auth i b u) (db_profiles db))
                 = map p_id (db_profiles db)).
  { rewrite map_map. apply map_ext. intros p. apply update_row_id. }
  split; [|split; [reflexivity|split; [reflexivity|split]]].
  - unfold db_consistent, users_pkey, profiles_pkey, transactions_pkey,
      profiles_fkey, transactions_fkey, usernames_unique, balances_nonneg in *.
    simpl. repeat split; try assumption.
    + now rewrite Hids.
    + rewrite Forall_forall in *. intros p' Hin.
      apply in_map_iff in Hin. destruct Hin as [p [<- Hin]].
      rewrite update_row_id. now apply Hpf.
    + rewrite Forall_forall in *. intros t Hin. specialize (Htf t Hin).
      apply has_profile_In. simpl. rewrite Hids. now apply has_profile_In.
    + now rewrite usernames_update.
    + rewrite forallb_forall in Hc. rewrite Forall_forall in *.
      intros p' Hin. specialize (Hc p' Hin).
      apply in_map_iff in Hin. destruct Hin as [p [<- Hin]].
      rewrite update_hits_row in Hc.
      destruct (update_hits auth i p) eqn:Hh; simpl in Hc.
      * now apply profiles_check_spec.
      * rewrite update_row_miss by assumption. now apply Hb.
  - intros j Hne. unfold stored_profile. simpl.
    rewrite find_map_same_id by (intros; apply update_row_id).
    destruct (find (fun p => uuid_eqb (p_id p) j) (db_profiles db))
      as [q|] eqn:Hq; [|reflexivity].
    simpl. f_equal. apply update_row_miss. apply not_true_false.
    rewrite update_hits_spec. intros [_ Hi].
    apply find_some in Hq. destruct Hq as [_ Hq]. apply uuid_eqb_eq in Hq.
    congruence.
  - intros Hne. destruct db as [us ps ts]. simpl. f_equal.
    rewrite <- (map_id ps) at 2. apply map_ext. intros p.
    apply update_row_miss. apply not_true_false.
    rewrite update_hits_spec. intros [Ha _]. now apply Hne.
Qed.

(** X13. The owner of a profile can write two numbers into its balances
    directly: such an update goes through exactly when both numbers are
    non-negative, the row then stores them, and no record of the change is
    added to [transactions]; with a negative number the update is refused
    by the CHECK constraint. *)
Theorem owner_writes_own_balances :
  forall (i : uuid) (b u : decimal) (db : database) (p : profiles_row),
    stored_profile i db = Some p ->
    match update_balances (Some i) i b u db with
    | Ok db' =>
        (0 <= b /\ 0 <= u)%Q /\
        stored_profile i db' = Some (with_balances b u p) /\
        db_transactions db' = db_transactions db
    | Err e =>
        e = check_violation /\ ~ (0 <= b /\ 0 <= u)%Q
    end.
Proof.
  intros i b u db p Hp.
  assert (Hhit : update_hits (Some i) i p = true).
  { apply update_hits_spec. split; [reflexivity|].
    unfold stored_profile in Hp. apply find_some in Hp.
    now apply uuid_eqb_eq. }
  assert (Hin : In p (db_profiles db)).
  { unfold stored_profile in Hp. now apply find_some in Hp. }
  destruct (update_balances (Some i) i b u db) as [db'|e] eqn:E.
  - apply update_ok_inv in E. destruct E as [Hc ->]. simpl.
    split; [|split; [|reflexivity]].
    + rewrite forallb_forall in Hc.
      specialize (Hc _ (in_map (update_row (Some i) i b u) _ _ Hin)).
      rewrite update_hits_row, Hhit in Hc. simpl in Hc.
      unfold update_row in Hc. rewrite Hhit in Hc.
      now apply profiles_check_spec in Hc.
    + unfold stored_profile in *. simpl.
      rewrite find_map_same_id by (intros; apply update_row_id).
      rewrite Hp. simpl. unfold update_row. now rewrite Hhit.
  - unfold update_balances in E.
    destruct (forallb _ _) eqn:Hc; [discriminate|].
    injection E as <-. split; [reflexivity|]. intros Hbu.
    assert (Hall : forallb
                     (fun p0 => negb (update_hits (Some i) i p0)
                                || profiles_check p0)
                     (map (update_row (Some i) i b u) (db_profiles db))
                   = true).
    { apply forallb_forall. intros q' Hq'.
      apply in_map_iff in Hq'. destruct Hq' as [q [<- _]].
      rewrite update_hits_row. unfold update_row.
      destruct (update_hits (Some i) i q); [|reflexivity]. simpl.
      now apply (profiles_check_spec (with_balances b u q)). }
    congruence.
Qed.

(** ** What a call leaves on the form *)

Lemma fetchProfile_fields s db :
  user (fetchProfile s db) = user s /\
  transactions (fetchProfile s db) = transactions s /\
  amount (fetchProfile s db) = amount s /\
  loading (fetchProfile s db) = loading s.
Proof.
  unfold fetchProfile.
  now destruct (select_profile (user s) (user s) db).
Qed.

Lemma fetchTransactions_fields s db :
  user (fetchTransactions s db) = user s /\
  profile (fetchTransactions s db) = profile s /\
  amount (fetchTransactions s db) = amount s /\
  loading (fetchTransactions s db) = loading s.
Proof.
  unfold fetchTransactions.
  now destruct (select_transactions (user s) (user s) db).
Qed.

Lemma has_profile_true_stored id db :
  has_profile id db = true -> exists p, stored_profile id db = Some p.
Proof.
  intros H. destruct (stored_profile id db) as [p|] eqn:E; [now exists p|].
  apply stored_profile_None in E. apply has_profile_In in H. contradiction.
Qed.

Section Form.

Variable Number : string -> number.
Variable balance_trigger :
  transactions_row -> decimal * decimal -> decimal * decimal.

Abbreviation handle := (handleTransaction Number balance_trigger).
Abbreviation run := (submit_all Number balance_trigger).

Lemma rejected_keeps ty e s db :
  accepted Number balance_trigger ty e s db = false ->
  let s' := fst (handle ty e s db) in
  snd (handle ty e s db) = db /\
  user s' = user s /\ profile s' = profile s /\
  transactions s' = transactions s /\ amount s' = amount s /\
  (loading s' = loading s \/ loading s' = false).
Proof.
  unfold accepted. intros H.
  destruct (invalid_amount Number (amount s)) eqn:Hv.
  { rewrite handle_invalid by assumption. simpl. tauto. }
  destruct (insufficient_balance Number ty s) eqn:Hi.
  { rewrite handle_insufficient by assumption. simpl. tauto. }
  destruct (insert_submitted Number balance_trigger s ty e db) as [db'|err] eqn:Hs.
  { discriminate. }
  rewrite (handle_failed _ _ _ _ _ _ err) by assumption. simpl. tauto.
Qed.

(** X7. An accepted call clears the input, re-enables the buttons and
    raises the success toast. Any other call keeps what was typed, the
    profile and the listing held, leaves the database as it was and raises
    exactly one error toast on top of the earlier ones. In both cases the
    user of the dashboard stays the same. *)
Theorem outcome_on_the_form :
  forall (ty : submit_type) (e : env) (s : Dashboard) (db : database),
    let s' := fst (handle ty e s db) in
    user s' = user s /\
    if accepted Number balance_trigger ty e s db then
      amount s' = EmptyString /\
      loading s' = false /\
      In (toast_success (String.append (type_name ty) " successful"))
         (toasts s')
    else
      amount s' = amount s /\
      profile s' = profile s /\
      transactions s' = transactions s /\
      snd (handle ty e s db) = db /\
      (exists message, toasts s' = toast_error message :: toasts s) /\
      (loading s' = loading s \/ loading s' = false).
Proof.
  intros ty e s db s'.
  destruct (accepted Number balance_trigger ty e s db) eqn:Hacc.
  - assert (Ht := accepted_true_toast _ _ _ _ _ _ Hacc).
    unfold accepted in Hacc.
    apply andb_true_iff in Hacc. destruct Hacc as [Hacc Hi].
    apply andb_true_iff in Hacc. destruct Hacc as [Hv Hb].
    apply negb_true_iff in Hv, Hb.
    destruct (insert_submitted Number balance_trigger s ty e db) as [db'|] eqn:Hs;
      [|discriminate].
    unfold s' in *. rewrite (handle_ok _ _ _ _ _ _ db') in * by assumption.
    simpl in *.
    match goal with
    | |- context [fetchTransactions ?x db'] =>
        destruct (fetchTransactions_fields x db') as (-> & _ & -> & _)
    end.
    match goal with
    | |- context [fetchProfile ?x db'] =>
        destruct (fetchProfile_fields x db') as (-> & _ & -> & _)
    end.
    simpl. repeat split. exact Ht.
  - destruct (rejected_keeps ty e s db Hacc) as (Hd & Hu & Hp & Ht & Ha & Hl).
    destruct (accepted_false_toast _ _ _ _ _ _ Hacc) as [m Hm].
    unfold s'. repeat split; try assumption. now exists m.
Qed.

(** X6. An input that converts to [Infinity] passes the validity guard and
    still never reaches the table. A withdrawal with a profile loaded is
    answered "Insufficient balance"; any other call sends the request with a
    null amount, which [amount decimal NOT NULL] refuses, and is answered
    "Failed to process ...". The database is as before either way. *)
Theorem infinite_amount_is_never_stored :
  forall (ty : submit_type) (e : env) (s : Dashboard) (db : database),
    amount s <> EmptyString ->
    Number (amount s) = Infinity ->
    handle ty e s db =
    if is_withdrawal ty && match profile s with Some _ => true | None => false end
    then (raise_toast (toast_error "Insufficient balance") s, db)
    else (setLoading false
            (raise_toast
               (toast_error (String.append "Failed to process " (type_name ty)))
               (setLoading true s)), db).
Proof.
  intros ty e s db Hne Hn.
  assert (Hv : invalid_amount Number (amount s) = false).
  { unfold invalid_amount. rewrite Hn. simpl.
    apply String.eqb_neq in Hne. now rewrite Hne. }
  assert (Hi : insufficient_balance Number ty s
               = is_withdrawal ty
                 && match profile s with Some _ => true | None => false end).
  { unfold insufficient_balance. rewrite Hn. now destruct (profile s). }
  destruct (is_withdrawal ty
            && match profile s with Some _ => true | None => false end).
  - now apply handle_insufficient.
  - assert (Hs : exists err,
               insert_submitted Number balance_trigger s ty e db = Err err).
    { unfold insert_submitted. rewrite Hn. simpl.
      destruct (user s); eauto. }
    destruct Hs as [err Hs]. now apply (handle_failed _ _ _ _ _ _ err).
Qed.

(** X11. A dashboard without a signed-in user never writes: whatever is
    typed and pressed, the database stays as it was and an error toast is
    raised; both fetches raise their error toast and load nothing. *)
Theorem signed_out_dashboard_never_writes :
  forall (ty : submit_type) (e : env) (s : Dashboard) (db : database),
    user s = None ->
    snd (handle ty e s db) = db /\
    (exists message,
       toasts (fst (handle ty e s db)) = toast_error message :: toasts s) /\
    fetchProfile s db = raise_toast (toast_error "Failed to load profile") s /\
    fetchTransactions s db
    = raise_toast (toast_error "Failed to load transactions") s.
Proof.
  intros ty e s db Hu.
  assert (Hacc : accepted Number balance_trigger ty e s db = false).
  { unfold accepted, insert_submitted. rewrite Hu. apply andb_false_r. }
  split; [|split; [|split]].
  - now apply rejected_keeps.
  - now apply accepted_false_toast.
  - unfold fetchProfile, select_profile. now rewrite Hu.
  - unfold fetchTransactions, select_transactions. now rewrite Hu.
Qed.

(** ** The two fetches behind an accepted insert *)

Lemma accepted_refetch ty e s db uid :
  profiles_pkey db ->
  user s = Some uid ->
  accepted Number balance_trigger ty e s db = true ->
  exists a db' p',
    Number (amount s) = Num a /\
    insert_transaction balance_trigger (Some uid) (submitted_row uid ty a e) db
    = Ok db' /\
    stored_profile uid db' = Some p' /\
    handle ty e s db =
    (setLoading false
       (setTransactions
          (firstn 10 (order_desc (own_transactions (Some uid) uid db')))
          (setProfile
             (Some {| btc_balance := p_btc_balance p';
                      usd_balance := p_usd_balance p' |})
             (setAmount EmptyString
                (raise_toast
                   (toast_success (String.append (type_name ty) " successful"))
                   (setLoading true s))))), db').
Proof.
  intros Hk Hu Hacc.
  destruct (accepted_amount Number _ _ _ _ _ Hacc) as (uid' & a & Hu' & Hn & _).
  rewrite Hu in Hu'. injection Hu' as <-.
  destruct (accepted_inv Number balance_trigger ty e s db uid a Hu Hn Hacc)
    as (db' & Hins & ->).
  assert (Hk' : profiles_pkey db').
  { apply insert_ok_inv in Hins. destruct Hins as (_ & _ & _ & _ & ->).
    unfold profiles_pkey. simpl. now rewrite fire_trigger_ids. }
  assert (Hp' : exists p', stored_profile uid db' = Some p').
  { apply has_profile_true_stored.
    apply insert_ok_inv in Hins. destruct Hins as (_ & _ & Hh & _ & ->).
    apply has_profile_In. simpl. rewrite fire_trigger_ids.
    now apply has_profile_In. }
  destruct Hp' as [p' Hp'].
  exists a, db', p'. split; [exact Hn|]. split; [exact Hins|].
  split; [exact Hp'|].
  set (s3 := setAmount EmptyString _).
  assert (Hu3 : user s3 = Some uid) by exact Hu.
  rewrite (fetchProfile_stored s3 db' uid p' Hu3 Hk' Hp').
  unfold fetchTransactions, select_transactions. simpl. now rewrite Hu.
Qed.

(** X14. After an accepted submit both fetches succeed: the row of the
    user is there, because the insert went through the foreign key, so a
    profile is held again and the success toast is the only toast raised;
    and the listing holds ten records, or all of the user's records, the new
    one included, when these are fewer. *)
Theorem accepted_submit_refetches_without_error :
  forall (ty : submit_type) (e : env) (s : Dashboard) (db : database)
         (uid : uuid),
    profiles_pkey db ->
    user s = Some uid ->
    accepted Number balance_trigger ty e s db = true ->
    toasts (fst (handle ty e s db))
    = toast_success (String.append (type_name ty) " successful") :: toasts s /\
    (exists data, profile (fst (handle ty e s db)) = Some data) /\
    (exists p', stored_profile uid (snd (handle ty e s db)) = Some p') /\
    List.length (transactions (fst (handle ty e s db)))
    = Nat.min 10 (S (List.length (own_transactions (Some uid) uid db))).
Proof.
  intros ty e s db uid Hk Hu Hacc.
  destruct (accepted_refetch ty e s db uid Hk Hu Hacc)
    as (a & db' & p' & _ & Hins & Hp' & ->).
  cbn [fst snd toasts profile transactions setLoading setTransactions
       setProfile setAmount raise_toast].
  split; [reflexivity|]. split; [eauto|]. split; [eauto|].
  apply insert_ok_inv in Hins. destruct Hins as (_ & _ & _ & _ & ->).
  rewrite length_firstn, length_order_desc.
  unfold own_transactions. cbn [db_transactions].
  rewrite filter_app, length_app. cbn [filter submitted_row t_user_id].
  cbn [auth_uid_is]. rewrite uuid_eqb_refl. cbn [andb List.length].
  f_equal. lia.
Qed.

End Form.

(** ** Without a trigger *)

Lemma fire_no_trigger new p : fire_trigger no_trigger new p = p.
Proof.
  unfold fire_trigger, no_trigger.
  destruct (uuid_eqb (p_id p) (t_user_id new)); [|reflexivity].
  now destruct p.
Qed.

Lemma handle_no_trigger_profiles Number ty e s db :
  db_profiles (snd (handleTransaction Number no_trigger ty e s db))
  = db_profiles db.
Proof.
  destruct (handle_database Number no_trigger ty e s db) as [->|H];
    [reflexivity|].
  destruct H as (uid & a & _ & _ & _ & H).
  apply insert_ok_inv in H. destruct H as (_ & _ & _ & _ & ->). simpl.
  rewrite <- (map_id (db_profiles db)) at 2. apply map_ext.
  intros p. apply fire_no_trigger.
Qed.

(** X17. The dashboard itself never writes a balance: with the migration
    as it stands, where no trigger is defined on [transactions], the table
    [profiles] is the same after every submission of any sequence, so every
    change of a balance that follows a deposit or a withdrawal is the work
    of a trigger. *)
Theorem without_trigger_no_balance_moves :
  forall (Number : string -> number) (cs : list submission) (s : Dashboard)
         (db : database),
    Forall (fun w => db_profiles (snd w) = db_profiles db)
           (submit_all Number no_trigger cs (s, db)).
Proof.
  intros Number. induction cs as [|c cs IH]; intros s db; simpl; constructor.
  - unfold submit. simpl. apply handle_no_trigger_profiles.
  - destruct (submit Number no_trigger c (s, db)) as [s' db'] eqn:E.
    assert (Hp : db_profiles db' = db_profiles db).
    { change db' with (snd (s', db')). rewrite <- E. unfold submit. simpl.
      apply handle_no_trigger_profiles. }
    rewrite <- Hp. apply IH.
Qed.

(** ** The extras on the session of [alice] and [bob] *)

Example two_users_db_value :
  map p_id (db_profiles two_users_db) = [alice_id; bob_id] /\
  map t_id (db_transactions two_users_db) = ["tx1"%string].
Proof. vm_compute. split; reflexivity. Qed.

Lemma alice_db_consistent : db_consistent alice_db.
Proof.
  exact (register_consistent alice 100 empty_database alice_db
           empty_database_consistent eq_refl).
Defined.

Lemma submissions_keep_database_consistent_witness :
  db_consistent alice_db /\
  Forall (fun w => db_consistent (snd w))
         (submit_all decimal_Number ledger_trigger spec_example alice_mounted).
Proof.
  split; [exact alice_db_consistent|].
  apply (submissions_keep_database_consistent decimal_Number ledger_trigger
           spec_example (fst alice_mounted) alice_db alice_db_consistent).
Defined.

Lemma foreign_reads_return_nothing_witness :
  Some bob_id <> Some alice_id /\
  select_transactions (Some bob_id) (Some alice_id) two_users_db = Ok [] /\
  select_profile (Some bob_id) (Some alice_id) two_users_db
  = Err no_single_row.
Proof.
  assert (H : Some bob_id <> Some alice_id) by discriminate.
  split; [exact H|].
  apply (foreign_reads_return_nothing (Some bob_id) alice_id two_users_db H).
Defined.

(** What [alice] reads from the same tables. *)
Example own_reads_return_rows :
  select_transactions (Some alice_id) (Some alice_id) two_users_db
  = Ok [direct_row "tx1" deposit 1 completed 200] /\
  select_profile (Some alice_id) (Some alice_id) two_users_db
  = Ok {| btc_balance := 1; usd_balance := 0 |}.
Proof. vm_compute. split; reflexivity. Qed.

Lemma infinite_amount_is_never_stored_witness :
  amount asking_infinity <> EmptyString /\
  Number_with_Infinity (amount asking_infinity) = Infinity /\
  handleTransaction Number_with_Infinity no_trigger submit_deposit
                    (at_instant "tx1" 200) asking_infinity alice_db
  = if is_withdrawal submit_deposit
       && match profile asking_infinity with Some _ => true | None => false end
    then (raise_toast (toast_error "Insufficient balance") asking_infinity,
          alice_db)
    else (setLoading false
            (raise_toast
               (toast_error
                  (String.append "Failed to process " (type_name submit_deposit)))
               (setLoading true asking_infinity)), alice_db).
Proof.
  assert (H1 : amount asking_infinity <> EmptyString) by (simpl; discriminate).
  assert (H2 : Number_with_Infinity (amount asking_infinity) = Infinity)
    by reflexivity.
  split; [exact H1|]. split; [exact H2|].
  apply (infinite_amount_is_never_stored Number_with_Infinity no_trigger
           submit_deposit (at_instant "tx1" 200) asking_infinity alice_db
           H1 H2).
Defined.

Lemma fetchProfile_loads_iff_row_exists_witness :
  user (initial_dashboard (Some bob_id)) = Some bob_id /\
  profiles_pkey alice_db /\
  match stored_profile bob_id alice_db with
  | Some _ =>
      exists data,
        fetchProfile (initial_dashboard (Some bob_id)) alice_db
        = setProfile (Some data) (initial_dashboard (Some bob_id))
  | None =>
      fetchProfile (initial_dashboard (Some bob_id)) alice_db
      = raise_toast (toast_error "Failed to load profile")
                    (initial_dashboard (Some bob_id))
  end.
Proof.
  split; [reflexivity|]. split; [exact alice_db_pkey|].
  apply (fetchProfile_loads_iff_row_exists (initial_dashboard (Some bob_id))
           alice_db bob_id eq_refl alice_db_pkey).
Defined.

Lemma registered_identity_mounts_on_zero_balances_witness :
  db_consistent alice_db /\
  register_identity bob 150 alice_db = Ok alice_bob_db /\
  mount (Some (u_id bob)) alice_bob_db =
  {| user := Some (u_id bob);
     profile := Some {| btc_balance := 0; usd_balance := 0 |};
     transactions := [];
     amount := EmptyString;
     loading := false;
     toasts := [] |}.
Proof.
  split; [exact alice_db_consistent|]. split; [reflexivity|].
  apply (registered_identity_mounts_on_zero_balances bob 150 alice_db
           alice_bob_db alice_db_consistent eq_refl).
Defined.

Lemma listing_holds_min_of_ten_and_history_witness :
  user (fst alice_mounted) = Some alice_id /\
  let own := own_transactions (Some alice_id) alice_id two_users_db in
  let l := transactions (fetchTransactions (fst alice_mounted) two_users_db) in
  List.length l = Nat.min 10 (List.length own) /\
  ((List.length own <= 10)%nat -> Permutation l own).
Proof.
  split; [reflexivity|].
  apply (listing_holds_min_of_ten_and_history (fst alice_mounted) two_users_db
           alice_id eq_refl).
Defined.

Lemma signed_out_dashboard_never_writes_witness :
  user signed_out = None /\
  snd (handleTransaction decimal_Number ledger_trigger submit_deposit
         (at_instant "tx1" 200) signed_out alice_db) = alice_db /\
  (exists message,
     toasts (fst (handleTransaction decimal_Number ledger_trigger submit_deposit
                    (at_instant "tx1" 200) signed_out alice_db))
     = toast_error message :: toasts signed_out) /\
  fetchProfile signed_out alice_db
  = raise_toast (toast_error "Failed to load profile") signed_out /\
  fetchTransactions signed_out alice_db
  = raise_toast (toast_error "Failed to load transactions") signed_out.
Proof.
  split; [reflexivity|].
  apply (signed_out_dashboard_never_writes decimal_Number ledger_trigger
           submit_deposit (at_instant "tx1" 200) signed_out alice_db eq_refl).
Defined.

Lemma update_reaches_own_row_only_witness :
  db_consistent alice_db /\
  update_balances (Some alice_id) alice_id 5 7 alice_db = Ok alice_rich_db /\
  db_consistent alice_rich_db /\
  db_users alice_rich_db = db_users alice_db /\
  db_transactions alice_rich_db = db_transactions alice_db /\
  (forall j, j <> alice_id ->
             stored_profile j alice_rich_db = stored_profile j alice_db) /\
  (Some alice_id <> Some alice_id -> alice_rich_db = alice_db).
Proof.
  split; [exact alice_db_consistent|]. split; [reflexivity|].
  apply (update_reaches_own_row_only (Some alice_id) alice_id 5 7 alice_db
           alice_rich_db alice_db_consistent eq_refl).
Defined.

Lemma owner_writes_own_balances_witness :
  stored_profile alice_id alice_db = Some (new_profile alice 100) /\
  match update_balances (Some alice_id) alice_id 5 (-1) alice_db with
  | Ok db' =>
      (0 <= 5 /\ 0 <= -1)%Q /\
      stored_profile alice_id db'
      = Some (with_balances 5 (-1) (new_profile alice 100)) /\
      db_transactions db' = db_transactions alice_db
  | Err e => e = check_violation /\ ~ (0 <= 5 /\ 0 <= -1)%Q
  end.
Proof.
  split; [reflexivity|].
  apply (owner_writes_own_balances alice_id 5 (-1) alice_db
           (new_profile alice 100) eq_refl).
Defined.

Example owner_writes_five_and_seven :
  update_balances (Some alice_id) alice_id 5 7 alice_db = Ok alice_rich_db /\
  update_balances (Some alice_id) alice_id 5 (-1) alice_db
  = Err check_violation /\
  update_balances (Some bob_id) alice_id 5 7 alice_db = Ok alice_db.
Proof. vm_compute. repeat split. Qed.

Lemma accepted_submit_refetches_without_error_witness :
  profiles_pkey alice_db /\
  user (typed "0.5" alice_mounted) = Some alice_id /\
  accepted decimal_Number no_trigger submit_deposit (at_instant "tx1" 200)
           (typed "0.5" alice_mounted) alice_db = true /\
  toasts (fst (handleTransaction decimal_Number no_trigger submit_deposit
                 (at_instant "tx1" 200) (typed "0.5" alice_mounted) alice_db))
  = toast_success (String.append (type_name submit_deposit) " successful")
    :: toasts (typed "0.5" alice_mounted) /\
  (exists data,
     profile (fst (handleTransaction decimal_Number no_trigger submit_deposit
                     (at_instant "tx1" 200) (typed "0.5" alice_mounted)
                     alice_db)) = Some data) /\
  (exists p',
     stored_profile alice_id
       (snd (handleTransaction decimal_Number no_trigger submit_deposit
               (at_instant "tx1" 200) (typed "0.5" alice_mounted) alice_db))
     = Some p') /\
  List.length
    (transactions
       (fst (handleTransaction decimal_Number no_trigger submit_deposit
               (at_instant "tx1" 200) (typed "0.5" alice_mounted) alice_db)))
  = Nat.min 10
      (S (List.length (own_transactions (Some alice_id) alice_id alice_db))).
Proof.
  assert (Ha : accepted decimal_Number no_trigger submit_deposit
                        (at_instant "tx1" 200) (typed "0.5" alice_mounted)
                        alice_db = true) by (vm_compute; reflexivity).
  split; [exact alice_db_pkey|]. split; [reflexivity|]. split; [exact Ha|].
  apply (accepted_submit_refetches_without_error decimal_Number no_trigger
           submit_deposit (at_instant "tx1" 200) (typed "0.5" alice_mounted)
           alice_db alice_id alice_db_pkey eq_refl Ha).
Defined.

(** ** Accepted submits on the migration as it stands *)

Lemma accepted_without_trigger Number ty e s db uid a :
  user s = Some uid ->
  Number (amount s) = Num a ->
  accepted Number no_trigger ty e s db = true ->
  snd (handleTransaction Number no_trigger ty e s db)
  = {| db_users := db_users db;
       db_profiles := db_profiles db;
       db_transactions := db_transactions db ++ [submitted_row uid ty a e] |}.
Proof.
  intros Hu Hn Hacc.
  destruct (accepted_inv Number no_trigger ty e s db uid a Hu Hn Hacc)
    as (db' & Hins & ->).
  apply insert_ok_inv in Hins. destruct Hins as (_ & _ & _ & _ & ->).
  simpl. f_equal.
  rewrite <- (map_id (db_profiles db)) at 2. apply map_ext.
  intros p. apply fire_no_trigger.
Qed.

(** C4, the code on the migration as it stands. An accepted submit appends
    exactly one record, the completed BTC record of the amount entered, and
    that is all it does: the table [profiles] is as before, so the balance
    stored for the user is neither the one before plus the amount nor the
    one before minus the amount. The trigger that the comments at
    Dashboard.tsx lines 89 and 94 count on is not defined by the
    migration. *)
Theorem accepted_submit_records_but_moves_no_balance :
  forall (Number : string -> number) (ty : submit_type) (e : env)
         (s : Dashboard) (db : database) (uid : uuid) (a : Q),
    user s = Some uid ->
    Number (amount s) = Num a ->
    accepted Number no_trigger ty e s db = true ->
    let db' := snd (handleTransaction Number no_trigger ty e s db) in
    db_transactions db' = db_transactions db ++ [submitted_row uid ty a e] /\
    db_profiles db' = db_profiles db /\
    exists p,
      stored_profile uid db = Some p /\
      stored_profile uid db' = Some p /\
      ~ (p_btc_balance p == p_btc_balance p + a)%Q /\
      ~ (p_btc_balance p == p_btc_balance p - a)%Q.
Proof.
  intros Number ty e s db uid a Hu Hn Hacc db'.
  assert (Hdb : db' = {| db_users := db_users db;
                         db_profiles := db_profiles db;
                         db_transactions :=
                           db_transactions db ++ [submitted_row uid ty a e] |})
    by (now apply accepted_without_trigger).
  destruct (accepted_amount Number _ _ _ _ _ Hacc) as (uid' & a' & Hu' & Hn' & Ha).
  rewrite Hn in Hn'. injection Hn' as <-.
  destruct (accepted_inv Number no_trigger ty e s db uid a Hu Hn Hacc)
    as (db1 & Hins & _).
  apply insert_ok_inv in Hins. destruct Hins as (_ & _ & Hh & _ & _).
  destruct (has_profile_true_stored uid db Hh) as [p Hp].
  rewrite Hdb. simpl. split; [reflexivity|]. split; [reflexivity|].
  exists p. split; [exact Hp|]. split; [exact Hp|].
  assert (Hz : ~ (a == 0)%Q).
  { intros Hz. rewrite Hz in Ha. now apply (Qlt_irrefl 0). }
  split; intros Heq; apply Hz.
  - apply (Qplus_inj_l _ _ (p_btc_balance p)).
    rewrite Qplus_0_r. now symmetry.
  - apply (Qplus_inj_l _ _ (p_btc_balance p - a)).
    rewrite Qplus_0_r. rewrite <- Heq at 2. unfold Qminus.
    rewrite <- Qplus_assoc, (Qplus_comm (- a) a), Qplus_opp_r, Qplus_0_r.
    reflexivity.
Qed.

Lemma accepted_submit_records_but_moves_no_balance_witness :
  user (typed "0.5" alice_mounted) = Some alice_id /\
  decimal_Number (amount (typed "0.5" alice_mounted)) = Num (1 # 2) /\
  accepted decimal_Number no_trigger submit_deposit (at_instant "tx1" 200)
           (typed "0.5" alice_mounted) alice_db = true /\
  let db' := snd (handleTransaction decimal_Number no_trigger submit_deposit
                    (at_instant "tx1" 200) (typed "0.5" alice_mounted)
                    alice_db) in
  db_transactions db'
  = db_transactions alice_db
    ++ [submitted_row alice_id submit_deposit (1 # 2) (at_instant "tx1" 200)] /\
  db_profiles db' = db_profiles alice_db /\
  exists p,
    stored_profile alice_id alice_db = Some p /\
    stored_profile alice_id db' = Some p /\
    ~ (p_btc_balance p == p_btc_balance p + (1 # 2))%Q /\
    ~ (p_btc_balance p == p_btc_balance p - (1 # 2))%Q.
Proof.
  assert (Ha : accepted decimal_Number no_trigger submit_deposit
                        (at_instant "tx1" 200) (typed "0.5" alice_mounted)
                        alice_db = true) by (vm_compute; reflexivity).
  split; [reflexivity|]. split; [reflexivity|]. split; [exact Ha|].
  apply (accepted_submit_records_but_moves_no_balance decimal_Number
           submit_deposit (at_instant "tx1" 200) (typed "0.5" alice_mounted)
           alice_db alice_id (1 # 2) eq_refl eq_refl Ha).
Defined.

(** The example of the spec on the migration as it stands: the deposit of
    0.5 on [btc_balance = 0] is answered "deposit successful" and recorded
    as completed, and the balance, in the table and on the dashboard after
    the refetch, is still 0. *)
Example deposit_half_is_recorded_but_not_credited :
  toasts (fst half_deposited) = [toast_success "deposit successful"] /\
  db_transactions (snd half_deposited)
  = [{| t_id := "tx1"; t_user_id := alice_id; t_type := deposit;
        t_amount := 1 # 2; t_currency := BTC; t_status := completed;
        t_created_at := 200 |}] /\
  option_map p_btc_balance (stored_profile alice_id alice_db) = Some 0%Q /\
  option_map p_btc_balance (stored_profile alice_id (snd half_deposited))
  = Some 0%Q /\
  option_map btc_balance (profile (fst half_deposited)) = Some 0%Q.
Proof. vm_compute. repeat split. Qed.

(** C5, the code on the migration as it stands, at one schedule of three
    deposits of 2 on the balance 0: the calls run one after the other, each
    is answered "deposit successful" and recorded, and the balance stored is
    0 after each of them, not 2, 4 and 6. *)
Lemma three_deposits_are_recorded_but_not_credited :
  map (fun w => (toasts (fst w),
                 map t_id (db_transactions (snd w)),
                 option_map p_btc_balance (stored_profile alice_id (snd w))))
      (submit_all decimal_Number no_trigger three_deposits alice_mounted)
  = [([toast_success "deposit successful"],
      ["tx1"%string], Some 0%Q);
     ([toast_success "deposit successful";
       toast_success "deposit successful"],
      ["tx1"%string; "tx2"%string], Some 0%Q);
     ([toast_success "deposit successful";
       toast_success "deposit successful";
       toast_success "deposit successful"],
      ["tx1"%string; "tx2"%string; "tx3"%string], Some 0%Q)] /\
  ~ (0 == 0 + 3 * 2)%Q.
Proof.
  split; [vm_compute; reflexivity|].
  intros H. discriminate H.
Qed.
